(** * EVENTS-SCANNER: a shallow embedding of the backend and its properties

    The development follows the layout of [backend/app]:
    - [Py]: the Python values, exceptions and string helpers the code uses;
    - [Datetime]: naive [datetime] values and the calendar arithmetic of
      [datetime(year, month, 1)] and [timedelta(days=n)];
    - [Models]: the rows of [models.py] and the tables of the database;
    - [EventDiscovery]: [event_discovery.py] ([EventDiscoveryEngine]);
    - [SessionManager]: [session_manager.py];
    - [Perplexity]: [perplexity_client.py];
    - [ApiEvents] and [ApiUsers]: the handlers of [api/api-events.py] and
      [api/api-users.py].

    Storage.  The engine and the session manager reach the database
    through [async with get_async_db().__anext__() as db].  In
    [database.py], [get_async_db] is an async generator function, so the
    operand of that statement is the awaitable of the generator's
    [__anext__], which is no asynchronous context manager: the statement
    raises [TypeError] before its body runs ([Models.async_with_db]).  The
    bodies are transcribed all the same, as the functions the statement
    would run against a session [db].  [_process_and_store_event] takes
    its session as an argument; for it, [db.add] followed by [commit]
    inserts the row, assigning an attribute of a loaded row followed by
    [commit] writes that column, [rollback] leaves the tables as they
    were, and [scalar_one_or_none] raises when more than one row matches.
    Reads of the clock and of the identifier generator ([uuid4]) are
    arguments of the functions that perform them.

    Values.  A JSON number is an [int] or a [float] (an IEEE double),
    strings are byte strings with ASCII case and ASCII whitespace, and a
    timestamp is its count of microseconds. *)

From stdpp Require Import base numbers list strings gmap sorting pretty.
From Stdlib Require Import PrimFloat.
From Stdlib Require Uint63.
From Stdlib Require Import ZArith Lia Ascii String.

(** ** Python values, exceptions, strings *)

Module Py.

(** The JSON-shaped values that travel in [Dict[str, Any]]. *)
#[warnings="-register-all"]
Inductive pyval : Type :=
| PNone
| PBool (b : bool)
| PInt (z : Z)
| PFloat (f : PrimFloat.float)
| PStr (s : string)
| PList (l : list pyval)
| PDict (d : list (string * pyval)).

(** Python truthiness ([if v:], [v or default]). *)
Definition truthy (v : pyval) : bool :=
  match v with
  | PNone => false
  | PBool b => b
  | PInt z => negb (z =? 0)%Z
  | PFloat f => negb (PrimFloat.eqb f 0)
  | PStr s => negb (String.eqb s "")
  | PList l => match l with [] => false | _ => true end
  | PDict d => match d with [] => false | _ => true end
  end.

(** [a or b] on values. *)
Definition por (a b : pyval) : pyval := if truthy a then a else b.

(** A [dict] with string keys; [d.get(k, default)] returns the stored
    value whenever the key is present, also when that value is [None]. *)
Definition get (d : gmap string pyval) (k : string) (default : pyval) : pyval :=
  match d !! k with
  | Some v => v
  | None => default
  end.

(** [d.update(other)]: the keys of [other] win, the rest of [d] stays. *)
Definition update (d other : gmap string pyval) : gmap string pyval := other ∪ d.

(** The exception classes the code raises or meets.  All of them derive
    from [Exception], so an [except Exception] clause catches each. *)
Inductive exn : Type :=
| HTTPException (status_code : Z) (detail : string)
| ValueError (msg : string)
| TypeError (msg : string)
| AttributeError (msg : string)
| KeyError (msg : string)
| OverflowError (msg : string)
| MultipleResultsFound
| StatementError (msg : string)
| RequestError (msg : string).

Inductive res (A : Type) : Type :=
| Ok (a : A)
| Raise (e : exn).
Arguments Ok {A} a.
Arguments Raise {A} e.

Definition bind {A B} (m : res A) (k : A → res B) : res B :=
  match m with
  | Ok a => k a
  | Raise e => Raise e
  end.

(** [try: body / except Exception as e: handler(e)]. *)
Definition try_except {A} (body : res A) (handler : exn → res A) : res A :=
  match body with
  | Ok a => Ok a
  | Raise e => handler e
  end.

(** [v.strip()]: only a [str] has the method. *)
Definition is_space (c : ascii) : bool :=
  let n := nat_of_ascii c in
  ((9 <=? n)%nat && (n <=? 13)%nat) || ((28 <=? n)%nat && (n <=? 32)%nat).

Fixpoint lstrip (s : string) : string :=
  match s with
  | String c s' => if is_space c then lstrip s' else s
  | EmptyString => EmptyString
  end.

Fixpoint rstrip (s : string) : string :=
  match s with
  | String c s' =>
      match rstrip s' with
      | EmptyString => if is_space c then EmptyString else String c EmptyString
      | t => String c t
      end
  | EmptyString => EmptyString
  end.

Definition strip (s : string) : string := rstrip (lstrip s).

Definition strip_val (v : pyval) : res string :=
  match v with
  | PStr s => Ok (strip s)
  | _ => Raise (AttributeError "object has no attribute 'strip'")
  end.

(** ASCII lower-casing, as [lower()] of the storage engine does it. *)
Definition lower_ascii (c : ascii) : ascii :=
  let n := nat_of_ascii c in
  if ((65 <=? n)%nat && (n <=? 90)%nat) then ascii_of_nat (n + 32) else c.

Fixpoint lower (s : string) : string :=
  match s with
  | String c s' => String (lower_ascii c) (lower s')
  | EmptyString => EmptyString
  end.

End Py.

(** [res] is used through stdpp's monad notation [x ← m; k]. *)
#[global] Instance res_ret : MRet Py.res := @Py.Ok.
#[global] Instance res_bind : MBind Py.res := λ A B k m, Py.bind m k.

(** ** Naive datetimes *)

Module Datetime.
Import Py.
Local Open Scope Z_scope.

(** A naive [datetime] is the number of microseconds since the midnight
    that precedes day ordinal 1 (0001-01-01 has ordinal 1), which is the
    order and the arithmetic Python gives to naive datetimes. *)
Definition datetime : Type := Z.

Definition us_per_day : Z := 86400000000.

Definition is_leap (year : Z) : bool :=
  (year mod 4 =? 0) && (negb (year mod 100 =? 0) || (year mod 400 =? 0)).

Definition days_before_year (year : Z) : Z :=
  let y := year - 1 in y * 365 + y / 4 - y / 100 + y / 400.

Definition days_in_month (year month : Z) : Z :=
  if month =? 2 then (if is_leap year then 29 else 28)
  else if (month =? 4) || (month =? 6) || (month =? 9) || (month =? 11) then 30
  else 31.

(** Days of the year before the first of [month]. *)
Definition days_before_month (year month : Z) : Z :=
  let feb := if is_leap year then 29 else 28 in
  match month with
  | 1 => 0
  | 2 => 31
  | 3 => 31 + feb
  | 4 => 62 + feb
  | 5 => 92 + feb
  | 6 => 123 + feb
  | 7 => 153 + feb
  | 8 => 184 + feb
  | 9 => 215 + feb
  | 10 => 245 + feb
  | 11 => 276 + feb
  | _ => 306 + feb
  end.

Definition ymd2ord (year month day : Z) : Z :=
  days_before_year year + days_before_month year month + day.

Definition MINYEAR : Z := 1.
Definition MAXYEAR : Z := 9999.

(** The conversion of an argument to a C [int], which [datetime(...)]
    performs on its arguments, in order, before it checks any range. *)
Definition c_int (z : Z) : res Z :=
  if z <? -2147483648 then
    Raise (OverflowError "signed integer is less than minimum")
  else if 2147483647 <? z then
    Raise (OverflowError "signed integer is greater than maximum")
  else Ok z.

(** [datetime(year, month, day)] at midnight: an argument that is no C
    [int] raises [OverflowError], an out-of-range field [ValueError]. *)
Definition mk_date (year month day : Z) : res datetime :=
  year ← c_int year ;
  month ← c_int month ;
  day ← c_int day ;
  if negb ((MINYEAR <=? year) && (year <=? MAXYEAR)) then
    Raise (ValueError "year is out of range")
  else if negb ((1 <=? month) && (month <=? 12)) then
    Raise (ValueError "month must be in 1..12")
  else if negb ((1 <=? day) && (day <=? days_in_month year month)) then
    Raise (ValueError "day is out of range for month")
  else Ok (ymd2ord year month day * us_per_day).

(** A full timestamp, used to write concrete rows. *)
Definition mk_datetime (year month day hour minute second : Z) : res datetime :=
  d ← mk_date year month day ;
  if negb ((0 <=? hour) && (hour <? 24) && (0 <=? minute) && (minute <? 60)
           && (0 <=? second) && (second <? 60)) then
    Raise (ValueError "time field out of range")
  else Ok (d + ((hour * 60 + minute) * 60 + second) * 1000000).

Definition timedelta_days (days : Z) : Z := days * us_per_day.

Definition min_datetime : Z := ymd2ord MINYEAR 1 1 * us_per_day.
Definition max_datetime : Z := (ymd2ord MAXYEAR 12 31 + 1) * us_per_day - 1.

(** [dt + delta] and [dt - delta] raise [OverflowError] outside the
    representable years. *)
Definition add (dt : datetime) (delta : Z) : res datetime :=
  let r := dt + delta in
  if (min_datetime <=? r) && (r <=? max_datetime) then Ok r
  else Raise (OverflowError "date value out of range").

Definition sub (dt : datetime) (delta : Z) : res datetime := add dt (- delta).

(** The day ordinal a timestamp falls on. *)
Definition toordinal (dt : datetime) : Z := dt / us_per_day.

(** The [(start_date, end_date)] pair both [discover_events] and
    [get_events_for_month] compute for the target month. *)
Definition month_bounds (target_year target_month : Z) : res (datetime * datetime) :=
  start_date ← mk_date target_year target_month 1 ;
  end_date ← (if target_month =? 12 then
                 d ← mk_date (target_year + 1) 1 1 ; sub d (timedelta_days 1)
               else
                 d ← mk_date target_year (target_month + 1) 1 ; sub d (timedelta_days 1)) ;
  Ok (start_date, end_date).

End Datetime.

(** ** Rows and tables ([models.py]) *)

Module Models.
Import Py Datetime.

(** A [Float] column value: a float, [float(n)] of an integer or
    [float(s)] of a string that parses. *)
Inductive pyfloat : Type :=
| FloatOf (f : PrimFloat.float)
| FloatOfInt (z : Z)
| FloatOfStr (s : string).

(** A number held by an [Integer] column: the [Integer] type hands an
    [int] or a [float] to the driver as it is. *)
Inductive number : Type :=
| NInt (z : Z)
| NFloat (f : PrimFloat.float).

(** [events].  The text columns the code always fills with a [str] are
    strings; [category], [event_type] and [ai_relevance_score] receive
    [raw_event.get(...)] unchecked and may hold NULL ([None]). *)
Record Event : Type := mkEvent {
  id : string;
  title : string;
  description : string;
  date_time : datetime;
  location : string;
  source_url : string;
  platform : string;
  category : option string;
  ai_relevance_score : option number;
  tags : pyval;
  organizer : string;
  event_type : option string;
  price : pyfloat;
  max_attendees : option Z;
  created_at : datetime;
  updated_at : datetime;
  is_active : bool
}.

(** [user_sessions]; [session_id] is the primary key. *)
Record UserSession : Type := mkUserSession {
  us_created_at : datetime;
  us_last_active : datetime;
  us_preferences : option (gmap string pyval);
  us_location : option string
}.

(** [watched_events]. *)
Record WatchedEvent : Type := mkWatchedEvent {
  we_session_id : string;
  we_event_id : string;
  we_watched_at : datetime;
  we_rating : option Z;
  we_notes : option string
}.

(** [event_discovery_logs]. *)
Record EventDiscoveryLog : Type := mkEventDiscoveryLog {
  log_id : string;
  log_search_query : string;
  log_platform : string;
  log_location : string;
  log_events_found : Z;
  log_events_classified : Z;
  log_success : bool;
  log_error_message : option string;
  log_created_at : datetime
}.

(** The database.  [events] and [watched_events] are kept in insertion
    order; [user_sessions] is indexed by its primary key. *)
Record Db : Type := mkDb {
  events : list Event;
  user_sessions : gmap string UserSession;
  watched_events : list WatchedEvent;
  event_discovery_logs : list EventDiscoveryLog
}.

Definition set_events (db : Db) (es : list Event) : Db :=
  mkDb es (user_sessions db) (watched_events db) (event_discovery_logs db).
Definition set_user_sessions (db : Db) (ss : gmap string UserSession) : Db :=
  mkDb (events db) ss (watched_events db) (event_discovery_logs db).
Definition set_watched_events (db : Db) (ws : list WatchedEvent) : Db :=
  mkDb (events db) (user_sessions db) ws (event_discovery_logs db).
Definition add_log (db : Db) (l : EventDiscoveryLog) : Db :=
  mkDb (events db) (user_sessions db) (watched_events db)
       (event_discovery_logs db ++ [l]).

(** [async with get_async_db().__anext__() as db: body].  [get_async_db]
    is an async generator function, so the operand is the awaitable of
    the generator's [__anext__]; it has no [__aenter__], the statement
    raises [TypeError] and [body] is not run.  ([database.py] itself opens
    its session with [async with AsyncSessionLocal() as session].  Before
    Python 3.11 the statement raises [AttributeError] instead, which the
    callers below treat in the same way.) *)
Definition session_error : exn :=
  TypeError ("'async_generator_asend' object does not support the "
             +:+ "asynchronous context manager protocol").

Definition async_with_db {A} (db : Db) (body : Db → res A * Db) : res A * Db :=
  (Raise session_error, db).

(** [try: ... except Exception: return default] around a block that
    returns a value. *)
Definition or_return {A} (default : A) (r : res A * Db) : A * Db :=
  match r with
  | (Ok a, db) => (a, db)
  | (Raise _, db) => (default, db)
  end.

(** [result.scalar_one_or_none()]. *)
Definition scalar_one_or_none {A} (rows : list A) : res (option A) :=
  match rows with
  | [] => Ok None
  | [r] => Ok (Some r)
  | _ => Raise MultipleResultsFound
  end.

(** Binding a Python value to a [String] or an [Integer] column: [None]
    is NULL, a value of the column's type is stored, anything else is
    refused when the statement runs. *)
Definition bind_text (v : pyval) : res (option string) :=
  match v with
  | PNone => Ok None
  | PStr s => Ok (Some s)
  | _ => Raise (StatementError "unsupported value for a String column")
  end.

Definition bind_int (v : pyval) : res (option number) :=
  match v with
  | PNone => Ok None
  | PInt z => Ok (Some (NInt z))
  | PBool b => Ok (Some (NInt (if b then 1 else 0)%Z))
  | PFloat f => Ok (Some (NFloat f))
  | _ => Raise (StatementError "unsupported value for an Integer column")
  end.

(** [float(z)] for the integers a score or a floor takes. *)
Definition float_of_Z (z : Z) : PrimFloat.float :=
  if (z <? 0)%Z then PrimFloat.opp (PrimFloat.of_uint63 (Uint63.of_Z (- z)))
  else PrimFloat.of_uint63 (Uint63.of_Z z).

(** [a <= b] on the numbers of a column. *)
Definition number_leb (a b : number) : bool :=
  match a, b with
  | NInt x, NInt y => (x <=? y)%Z
  | NInt x, NFloat g => PrimFloat.leb (float_of_Z x) g
  | NFloat f, NInt y => PrimFloat.leb f (float_of_Z y)
  | NFloat f, NFloat g => PrimFloat.leb f g
  end.

(** [a LIKE p] with the wildcards [%] (any run of characters) and [_]
    (any one character), compared without regard to ASCII case. *)
Fixpoint like (p : string) : string → bool :=
  match p with
  | EmptyString => λ s, match s with EmptyString => true | _ => false end
  | String c p' =>
      if Ascii.eqb c "%" then
        fix skip (s : string) : bool :=
          like p' s || match s with
                       | EmptyString => false
                       | String _ s' => skip s'
                       end
      else if Ascii.eqb c "_" then
        λ s, match s with
             | EmptyString => false
             | String _ s' => like p' s'
             end
      else
        λ s, match s with
             | EmptyString => false
             | String d s' => Ascii.eqb (lower_ascii c) (lower_ascii d) && like p' s'
             end
  end.

(** [column.ilike(pattern)]. *)
Definition ilike (column pattern : string) : bool := like pattern column.

End Models.

(** ** The discovery engine ([event_discovery.py]) *)

Module EventDiscovery.
Import Py Datetime Models.
Local Open Scope Z_scope.

Definition supported_platforms : list string := ["luma"; "meetup"].

Definition event_categories : list string :=
  ["Conference"; "Workshop"; "Networking"; "Talk"; "Hackathon"; "Other"].

(** [x in xs] on a list of strings. *)
Definition in_list (x : string) (xs : list string) : bool :=
  existsb (String.eqb x) xs.

(** [value or default] on an [Optional[int]]. *)
Definition int_or (value : option Z) (default : Z) : Z :=
  match value with
  | Some v => if v =? 0 then default else v
  | None => default
  end.

(** Truthiness of an [Optional[str]]. *)
Definition str_truthy (value : option string) : bool :=
  match value with
  | Some s => negb (String.eqb s "")
  | None => false
  end.

(** One entry of the [events] list of the response. *)
Record EventDict : Type := mkEventDict {
  d_id : string;
  d_title : string;
  d_description : string;
  d_dateTime : datetime;
  d_location : string;
  d_sourceUrl : string;
  d_platform : string;
  d_category : option string;
  d_aiRelevanceScore : option number;
  d_tags : pyval;
  d_organizer : string;
  d_eventType : option string;
  d_price : pyfloat;
  d_isWatched : bool;
  d_createdAt : datetime
}.

Record EventsResponse : Type := mkEventsResponse {
  r_events : list EventDict;
  r_eventsByCategory : list (string * list EventDict);
  r_totalEvents : nat;
  r_watchedCount : nat;
  r_month : Z;
  r_year : Z
}.

(** *** [get_events_for_month] *)

(** A [select(Event)] under construction is the predicate its [where]
    clauses have accumulated; a NULL column makes its comparison fail. *)
Definition where_ (query clause : Event → bool) : Event → bool :=
  λ e, query e && clause e.

Definition base_query (start_date end_date : datetime) (min_relevance_score : Z)
    : Event → bool :=
  λ e, (start_date <=? date_time e)
       && (date_time e <=? end_date)
       && match ai_relevance_score e with
          | Some s => number_leb (NInt min_relevance_score) s
          | None => false
          end
       && is_active e.

Definition location_clause (location : string) : Event → bool :=
  λ e, ilike (Models.location e) ("%" +:+ location +:+ "%").

Definition category_clause (category : string) : Event → bool :=
  λ e, match Models.category e with
       | Some c => String.eqb c category
       | None => false
       end.

(** [ORDER BY date_time ASC, ai_relevance_score DESC]; NULL sorts as the
    smallest score. *)
Definition score_desc_leb (a b : option number) : bool :=
  match a, b with
  | _, None => true
  | None, Some _ => false
  | Some x, Some y => number_leb y x
  end.

Definition order_leb (a b : Event) : bool :=
  (date_time a <? date_time b)
  || ((date_time a =? date_time b)
      && score_desc_leb (ai_relevance_score a) (ai_relevance_score b)).

Definition order_le (a b : Event) : Prop := order_leb a b = true.

#[global] Instance order_le_dec a b : Decision (order_le a b).
Proof. unfold order_le. apply _. Defined.

Definition order_by (rows : list Event) : list Event := merge_sort order_le rows.

(** [{row[0] for row in watched_result.fetchall()}]. *)
Definition watched_ids (db : Db) (session_id : string) : gset string :=
  list_to_set
    (map we_event_id
         (List.filter (λ w, String.eqb (we_session_id w) session_id) (watched_events db))).

Definition format_event (watched_event_ids : gset string) (event : Event) : EventDict :=
  {| d_id := id event;
     d_title := title event;
     d_description := description event;
     d_dateTime := date_time event;
     d_location := Models.location event;
     d_sourceUrl := source_url event;
     d_platform := platform event;
     d_category := category event;
     d_aiRelevanceScore := ai_relevance_score event;
     d_tags := por (tags event) (PList []);
     d_organizer := organizer event;
     d_eventType := event_type event;
     d_price := price event;
     d_isWatched := bool_decide (id event ∈ watched_event_ids);
     d_createdAt := created_at event |}.

(** [event["category"] == category_name]. *)
Definition has_category (category_name : string) (event : EventDict) : bool :=
  match d_category event with
  | Some c => String.eqb c category_name
  | None => false
  end.

Definition group_by_category (formatted_events : list EventDict)
    : list (string * list EventDict) :=
  map (λ category_name,
         (category_name, List.filter (has_category category_name) formatted_events))
      event_categories.

(** The rows the query selects, in the order it returns them. *)
Definition select_events (db : Db) (start_date end_date : datetime)
    (location category : option string) (min_relevance_score : Z) : list Event :=
  let query := base_query start_date end_date min_relevance_score in
  let query :=
    if str_truthy location then where_ query (location_clause (default "" location))
    else query in
  let query :=
    if str_truthy category && in_list (default "" category) event_categories
    then where_ query (category_clause (default "" category))
    else query in
  order_by (List.filter query (events db)).

(** [now_month] and [now_year] are the fields of [datetime.now()].  The
    month's bounds are computed first; the query, the watch lookup and
    the formatting are the body of the session block. *)
Definition get_events_for_month (db : Db) (now_month now_year : Z)
    (session_id : string) (location : option string) (month year : option Z)
    (category : option string) (min_relevance_score : Z) : res EventsResponse :=
  let target_month := int_or month now_month in
  let target_year := int_or year now_year in
  '(start_date, end_date) ← month_bounds target_year target_month;
  (async_with_db db (λ db,
     let events := select_events db start_date end_date location category
                                 min_relevance_score in
     let watched_event_ids := watched_ids db session_id in
     let formatted_events := map (format_event watched_event_ids) events in
     (Ok {| r_events := formatted_events;
            r_eventsByCategory := group_by_category formatted_events;
            r_totalEvents := List.length formatted_events;
            r_watchedCount := List.length (List.filter d_isWatched formatted_events);
            r_month := target_month;
            r_year := target_year |}, db))).1.

(** *** [mark_event_watched] and [unmark_event_watched] *)

Definition is_watch (session_id event_id : string) (w : WatchedEvent) : bool :=
  String.eqb (we_session_id w) session_id && String.eqb (we_event_id w) event_id.

(** Both toggles wrap their session block in [try] and return [False]
    from [except Exception]. *)
Definition mark_event_watched (db : Db) (session_id event_id : string)
    (now : datetime) : bool * Db :=
  or_return false
    (async_with_db db (λ db,
       match scalar_one_or_none
               (List.filter (is_watch session_id event_id) (watched_events db)) with
       | Raise e => (Raise e, db)
       | Ok (Some _) => (Ok true, db)
       | Ok None =>
           let watched_event := mkWatchedEvent session_id event_id now None None in
           (Ok true, set_watched_events db (watched_events db ++ [watched_event]))
       end)).

Definition unmark_event_watched (db : Db) (session_id event_id : string)
    : bool * Db :=
  or_return false
    (async_with_db db (λ db,
       match scalar_one_or_none
               (List.filter (is_watch session_id event_id) (watched_events db)) with
       | Raise e => (Raise e, db)
       | Ok (Some _) =>
           (Ok true, set_watched_events db
                       (List.filter (λ w, negb (is_watch session_id event_id w))
                                    (watched_events db)))
       | Ok None => (Ok true, db)
       end)).

(** *** [_process_and_store_event] and [discover_events] *)

(** The summary returned for a stored event. *)
Record EventSummary : Type := mkEventSummary {
  s_id : string;
  s_title : string;
  s_category : option string;
  s_aiRelevanceScore : option number;
  s_dateTime : datetime
}.

Definition summary_of (event : Event) : EventSummary :=
  {| s_id := id event;
     s_title := title event;
     s_category := category event;
     s_aiRelevanceScore := ai_relevance_score event;
     s_dateTime := date_time event |}.

(** The [(title, date_time, platform)] comparison of the existence query. *)
Definition same_triple (title : string) (event_date : datetime) (platform : string)
    (e : Event) : bool :=
  String.eqb (Models.title e) title
  && (date_time e =? event_date)
  && String.eqb (Models.platform e) platform.

(** [strftime('%B')]. *)
Definition month_name (month : Z) : string :=
  match month with
  | 1 => "January" | 2 => "February" | 3 => "March" | 4 => "April"
  | 5 => "May" | 6 => "June" | 7 => "July" | 8 => "August"
  | 9 => "September" | 10 => "October" | 11 => "November" | _ => "December"
  end.

(** [str(e)]. *)
Definition exn_str (e : exn) : string :=
  match e with
  | HTTPException _ detail => detail
  | ValueError msg | TypeError msg | AttributeError msg | KeyError msg
  | OverflowError msg | StatementError msg | RequestError msg => msg
  | MultipleResultsFound => "Multiple rows were found when one or none was required"
  end.

Section Engine.

(** [date_parser.parse(str(v))] of the [dateutil] library, which fills
    the fields the text leaves out from the current date: [parse_date
    today v] is the parsed timestamp when the parser reads [today] from
    the clock, or [None] where it raises. *)
Variable parse_date : datetime → pyval → option datetime.

(** Whether [float(s)] accepts the string [s]. *)
Variable float_parses : string → bool.

(** [float(v)]. *)
Definition to_float (v : pyval) : res pyfloat :=
  match v with
  | PFloat f => Ok (FloatOf f)
  | PInt z => Ok (FloatOfInt z)
  | PBool b => Ok (FloatOfInt (if b then 1 else 0))
  | PStr s => if float_parses s then Ok (FloatOfStr s)
              else Raise (ValueError "could not convert string to float")
  | _ => Raise (TypeError "float() argument must be a string or a real number")
  end.

(** The [Event(...)] constructor call and the binding of its columns.
    [created] and [updated] are the two readings of [datetime.utcnow]
    that fill the defaults of [created_at] and [updated_at]. *)
Definition new_event (raw_event : gmap string pyval) (title : string)
    (event_date : datetime) (platform : string) (created updated : datetime)
    (uuid : string) : res Event :=
  description ← strip_val (get raw_event "description" (PStr ""));
  location ← strip_val (get raw_event "location" (PStr "Online"));
  url ← strip_val (get raw_event "url" (PStr ""));
  let source_url :=
    if String.eqb url "" then "https://" +:+ platform +:+ ".com" else url in
  organizer ← strip_val (get raw_event "organizer" (PStr ""));
  price ← (if truthy (get raw_event "price" PNone)
           then to_float (get raw_event "price" (PFloat 0))
           else Ok (FloatOf 0));
  category ← bind_text (get raw_event "category" (PStr "Other"));
  ai_relevance_score ← bind_int (get raw_event "ai_relevance_score" (PInt 5));
  event_type ← bind_text (get raw_event "event_type" (PStr "unknown"));
  Ok {| id := uuid;
        title := title;
        description := description;
        date_time := event_date;
        location := location;
        source_url := source_url;
        platform := platform;
        category := category;
        ai_relevance_score := ai_relevance_score;
        tags := get raw_event "tags" (PList []);
        organizer := organizer;
        event_type := event_type;
        price := price;
        max_attendees := None;
        created_at := created;
        updated_at := updated;
        is_active := true |}.

(** The update of a re-discovered row. *)
Definition refresh (now : datetime) (score : option number) (e : Event) : Event :=
  {| id := id e;
     title := title e;
     description := description e;
     date_time := date_time e;
     location := Models.location e;
     source_url := source_url e;
     platform := platform e;
     category := category e;
     ai_relevance_score := score;
     tags := tags e;
     organizer := organizer e;
     event_type := event_type e;
     price := price e;
     max_attendees := max_attendees e;
     created_at := created_at e;
     updated_at := now;
     is_active := is_active e |}.

(** The body of the [try] block: the value returned and the committed
    database, or the exception that leaves the block.  [today] is the
    clock reading of the date parser; [now] is the reading of
    [datetime.utcnow()] that an update writes to [updated_at] and an
    insert to [created_at], [updated] the further reading an insert
    writes to [updated_at]. *)
Definition process_body (db : Db) (raw_event : gmap string pyval) (platform : string)
    (today now updated : datetime) (uuid : string)
    : res (option EventSummary * Db) :=
  title ← strip_val (get raw_event "title" (PStr ""));
  if String.eqb title "" then Ok (None, db) else
  let date_str := por (get raw_event "date_time" PNone) (get raw_event "date" PNone) in
  if negb (truthy date_str) then Ok (None, db) else
  match parse_date today date_str with
  | None => Ok (None, db)
  | Some event_date =>
      existing_event ←
        scalar_one_or_none
          (List.filter (same_triple title event_date platform) (events db));
      match existing_event with
      | Some existing =>
          score ← match raw_event !! "ai_relevance_score" with
                  | Some v => bind_int v
                  | None => Ok (ai_relevance_score existing)
                  end;
          Ok (None,
              set_events db
                (map (λ e, if same_triple title event_date platform e
                           then refresh now score e else e)
                     (events db)))
      | None =>
          event ← new_event raw_event title event_date platform now updated uuid;
          Ok (Some (summary_of event), set_events db (events db ++ [event]))
      end
  end.

(** [except Exception: await db.rollback(); return None]. *)
Definition _process_and_store_event (db : Db) (raw_event : gmap string pyval)
    (platform : string) (today now updated : datetime) (uuid : string)
    : option EventSummary * Db :=
  match process_body db raw_event platform today now updated uuid with
  | Ok r => r
  | Raise _ => (None, db)
  end.

(** The clock readings and the identifier of one call of
    [_process_and_store_event]. *)
Record draw : Type := mkDraw {
  draw_today : datetime;
  draw_now : datetime;
  draw_updated : datetime;
  draw_uuid : string
}.

(** The [for raw_event in raw_events] loop of [discover_events]; the
    [i]-th candidate is processed with the readings [draws i].  A
    candidate that raises is logged with
    [logger.error(msg, event=..., error=...)]; [_process_and_store_event]
    catches every exception itself, so that handler is not reached. *)
Fixpoint process_all (db : Db) (raw_events : list (gmap string pyval))
    (platform : string) (draws : nat → draw) (i : nat)
    : list EventSummary * Db :=
  match raw_events with
  | [] => ([], db)
  | raw_event :: rest =>
      let '(processed_event, db1) :=
        _process_and_store_event db raw_event platform (draw_today (draws i))
          (draw_now (draws i)) (draw_updated (draws i)) (draw_uuid (draws i)) in
      let '(processed_events, db2) := process_all db1 rest platform draws (S i) in
      (match processed_event with
       | Some s => s :: processed_events
       | None => processed_events
       end, db2)
  end.

(** [search] is the outcome of [perplexity_client.search_events];
    [log_uuid] and [log_now] fill the defaults of the log row.  After the
    argument checks the function runs a [try] whose session block holds
    the loop and the success log; the [except Exception] handler opens a
    session block of its own for the failure log and re-raises. *)
Definition discover_events (db : Db) (now_month now_year : Z)
    (location platform : string) (month year : option Z)
    (search : res (list (gmap string pyval)))
    (draws : nat → draw) (log_uuid : string) (log_now : datetime)
    : res (list EventSummary) * Db :=
  if negb (in_list platform supported_platforms) then
    (Raise (ValueError ("Platform " +:+ platform +:+ " not supported")), db)
  else
    let target_month := int_or month now_month in
    let target_year := int_or year now_year in
    match month_bounds target_year target_month with
    | Raise e => (Raise e, db)
    | Ok _ =>
        let date_range :=
          "from " +:+ month_name target_month +:+ " " +:+ pretty target_year in
        let discovery_log found classified success error_message :=
          mkEventDiscoveryLog log_uuid
            (location +:+ " " +:+ platform +:+ " " +:+ date_range)
            platform location found classified success error_message log_now in
        let attempt : res (list EventSummary) * Db :=
          match search with
          | Raise e => (Raise e, db)
          | Ok raw_events =>
              async_with_db db (λ db,
                let '(processed_events, db1) :=
                  process_all db raw_events platform draws 0 in
                (Ok processed_events,
                 add_log db1
                   (discovery_log (Z.of_nat (List.length raw_events))
                                  (Z.of_nat (List.length processed_events))
                                  true None)))
          end in
        let events_found :=
          match search with
          | Ok raw_events => Z.of_nat (List.length raw_events)
          | Raise _ => 0
          end in
        match attempt with
        | (Ok processed_events, db1) => (Ok processed_events, db1)
        | (Raise e, db1) =>
            match async_with_db db1 (λ db,
                    (Ok tt,
                     add_log db (discovery_log events_found 0 false
                                               (Some (exn_str e)))))
            with
            | (Ok _, db2) => (Raise e, db2)
            | (Raise e', db2) => (Raise e', db2)
            end
        end
    end.

End Engine.

End EventDiscovery.

(** ** Sessions ([session_manager.py]) *)

Module SessionManager.
Import Py Datetime Models.
Local Open Scope Z_scope.

(** [timedelta(days=30)]. *)
Definition session_lifetime : Z := timedelta_days 30.

Definition default_preferences (location : string) : gmap string pyval :=
  <["location" := PStr location]>
  (<["categories" := PList [PStr "Conference"; PStr "Workshop"; PStr "Networking";
                             PStr "Talk"; PStr "Hackathon"]]>
  (<["min_relevance_score" := PInt 5]>
  (<["platform" := PStr "luma"]>
  (<["notifications" := PBool true]>
  (<["theme" := PStr "dark"]> ∅))))).

(** [d or {}] on the JSON column. *)
Definition prefs_or_empty (d : option (gmap string pyval)) : gmap string pyval :=
  match d with
  | Some m => if bool_decide (size m = 0%nat) then ∅ else m
  | None => ∅
  end.

(** [create_session]; [session_id] is the token [create_session_id]
    draws and [now] fills [created_at] and [last_active].  The
    [except Exception] clause logs and re-raises. *)
Definition create_session (db : Db) (session_id : string) (now : datetime)
    (location : option string) (preferences : option (gmap string pyval))
    : res string * Db :=
  let loc := match location with
             | Some l => if String.eqb l "" then "Online" else l
             | None => "Online"
             end in
  let prefs := update (default_preferences loc) (prefs_or_empty preferences) in
  async_with_db db (λ db,
    match bind_text (get prefs "location" PNone) with
    | Raise e => (Raise e, db)
    | Ok location_column =>
        match user_sessions db !! session_id with
        | Some _ => (Raise (StatementError "UNIQUE constraint failed"), db)
        | None =>
            (Ok session_id,
             set_user_sessions db
               (<[session_id := mkUserSession now now (Some prefs) location_column]>
                  (user_sessions db)))
        end
    end).

(** [_update_last_active]: an UPDATE of the rows with that key. *)
Definition _update_last_active (db : Db) (session_id : string) (now : datetime) : Db :=
  set_user_sessions db
    (alter (λ s, mkUserSession (us_created_at s) now (us_preferences s) (us_location s))
           session_id (user_sessions db)).

(** [get_session]: the loaded row, and [last_active] refreshed;
    [except Exception] returns [None]. *)
Definition get_session (db : Db) (session_id : string) (now : datetime)
    : option UserSession * Db :=
  or_return None
    (async_with_db db (λ db,
       match user_sessions db !! session_id with
       | Some session => (Ok (Some session), _update_last_active db session_id now)
       | None => (Ok None, db)
       end)).

(** [update_session_preferences]; [except Exception] returns [False]. *)
Definition update_session_preferences (db : Db) (session_id : string)
    (preferences : gmap string pyval) (now : datetime) : bool * Db :=
  or_return false
    (async_with_db db (λ db,
       match user_sessions db !! session_id with
       | None => (Ok false, db)
       | Some session =>
           let current_prefs := prefs_or_empty (us_preferences session) in
           let current_prefs := update current_prefs preferences in
           let location :=
             match preferences !! "location" with
             | Some v => bind_text v
             | None => Ok (us_location session)
             end in
           match location with
           | Raise e => (Raise e, db)
           | Ok location =>
               let session :=
                 mkUserSession (us_created_at session) (us_last_active session)
                               (Some current_prefs) location in
               let db :=
                 set_user_sessions db (<[session_id := session]> (user_sessions db)) in
               (Ok true, _update_last_active db session_id now)
           end
       end)).

(** [_cleanup_expired_session]; [except Exception] only logs. *)
Definition _cleanup_expired_session (db : Db) (session_id : string) : Db :=
  (or_return tt
     (async_with_db db (λ db,
        match user_sessions db !! session_id with
        | Some _ => (Ok tt, set_user_sessions db (delete session_id (user_sessions db)))
        | None => (Ok tt, db)
        end))).2.

(** [is_valid_session]; [t_active] is the clock read by [get_session]
    and [t_check] the later one read by the expiry test. *)
Definition is_valid_session (db : Db) (session_id : string)
    (t_active t_check : datetime) : res bool * Db :=
  if String.eqb session_id "" then (Ok false, db)
  else
    let '(session, db) := get_session db session_id t_active in
    match session with
    | None => (Ok false, db)
    | Some session =>
        match add (us_created_at session) session_lifetime with
        | Raise e => (Raise e, db)
        | Ok expiry_date =>
            if t_check >? expiry_date
            then (Ok false, _cleanup_expired_session db session_id)
            else (Ok true, db)
        end
    end.

Definition get_user_preferences (db : Db) (session_id : string) (now : datetime)
    : gmap string pyval * Db :=
  let '(session, db) := get_session db session_id now in
  match session with
  | Some s =>
      match us_preferences s with
      | Some m => if bool_decide (size m = 0%nat) then (default_preferences "Online", db)
                  else (m, db)
      | None => (default_preferences "Online", db)
      end
  | None => (default_preferences "Online", db)
  end.

(** [cleanup_expired_sessions]: the number of sessions deleted.  The
    cutoff is computed inside the [try], so an overflow returns 0, as
    does every exception of the session block. *)
Definition cleanup_expired_sessions (db : Db) (now : datetime) : nat * Db :=
  match sub now session_lifetime with
  | Raise _ => (0%nat, db)
  | Ok cutoff_date =>
      or_return 0%nat
        (async_with_db db (λ db,
           let expired_sessions :=
             filter (λ kv : string * UserSession, us_created_at kv.2 < cutoff_date)
                    (user_sessions db) in
           let count := size expired_sessions in
           if (0 <? count)%nat then
             (Ok count, set_user_sessions db (user_sessions db ∖ expired_sessions))
           else (Ok count, db)))
  end.

End SessionManager.

(** ** The classification client ([perplexity_client.py]) *)

Module Perplexity.
Import Py Models.
Local Open Scope Z_scope.

(** What the completion request of [classify_event] comes to: the call,
    the status check or the extraction of the message content raised, or
    the stripped message content arrived. *)
Inductive completion : Type :=
| CallFailed (e : exn)
| Content (content : string).

(** A parsed JSON object as a [dict]: a later pair wins. *)
Definition to_map (d : list (string * pyval)) : gmap string pyval :=
  list_to_map (reverse d).

(** [classification["ai_relevance_score"] >= 5]. *)
Definition relevant (classification : pyval) : res bool :=
  match classification with
  | PDict d =>
      match to_map d !! "ai_relevance_score" with
      | Some (PInt z) => Ok (5 <=? z)
      | Some (PFloat f) => Ok (PrimFloat.leb (float_of_Z 5) f)
      | Some (PBool b) => Ok (5 <=? (if b then 1 else 0))
      | Some _ => Raise (TypeError "'>=' not supported")
      | None => Raise (KeyError "ai_relevance_score")
      end
  | _ => Raise (TypeError "indices must be integers")
  end.

(** [event.update(classification)]. *)
Definition merge_classification (event : gmap string pyval) (classification : pyval)
    : res (gmap string pyval) :=
  match classification with
  | PDict d => Ok (update event (to_map d))
  | _ => Raise (TypeError "object is not a mapping")
  end.

(** The record returned when the content is not JSON. *)
Definition fallback : pyval :=
  PDict [("ai_relevance_score", PInt 5);
         ("category", PStr "Other");
         ("tags", PList []);
         ("event_type", PStr "unknown");
         ("reasoning", PStr "Classification parsing failed")].

Section Client.

(** [json.loads]: the value, or [None] where it raises
    [JSONDecodeError]. *)
Variable json_loads : string → option pyval.

(** [hash(str(v))]. *)
Variable title_hash : pyval → Z.

Definition cache_key (event_data : gmap string pyval) : string :=
  "classify_" +:+ pretty (title_hash (get event_data "title" (PStr ""))).

Definition classify_event (cache : gmap string pyval)
    (event_data : gmap string pyval) (reply : completion)
    : res pyval * gmap string pyval :=
  match cache !! cache_key event_data with
  | Some classification => (Ok classification, cache)
  | None =>
      match reply with
      | CallFailed e => (Raise e, cache)
      | Content content =>
          match json_loads content with
          | Some classification =>
              (Ok classification, <[cache_key event_data := classification]> cache)
          | None => (Ok fallback, cache)
          end
      end
  end.

(** What the [except Exception] clause of the classification loop
    comes to.  It calls [logger.error(msg, event=..., error=...)], and
    the first positional parameter of a [structlog] logger method is
    itself named [event]: the call raises [TypeError], which leaves
    [search_events]. *)
Definition log_error_event_clash : exn :=
  TypeError "got multiple values for argument 'event'".

(** The classification loop of [search_events]; [replies i] answers
    the request made for the [i]-th candidate.  The list is [Raise e]
    when the loop was left by the exception [e]. *)
Fixpoint classify_all (cache : gmap string pyval)
    (unique_events : list (gmap string pyval)) (replies : nat → completion) (i : nat)
    : res (list (gmap string pyval)) * gmap string pyval :=
  match unique_events with
  | [] => (Ok [], cache)
  | event :: rest =>
      let '(classification, cache1) := classify_event cache event (replies i) in
      let kept : res (option (gmap string pyval)) :=
        try_except
          (c ← classification;
           keep ← relevant c;
           if (keep : bool) then (e ← merge_classification event c; Ok (Some e))
           else Ok None)
          (λ _, Raise log_error_event_clash) in
      match kept with
      | Raise e => (Raise e, cache1)
      | Ok kept =>
          let '(classified_events, cache2) := classify_all cache1 rest replies (S i) in
          (match kept with
           | Some e => l ← classified_events; Ok (e :: l)
           | None => classified_events
           end, cache2)
      end
  end.

End Client.

Section Search.

Variable json_loads : string → option pyval.
Variable title_hash : pyval → Z.

(** [str(v)]. *)
Variable py_str : pyval → string.

(** [_generate_search_queries]; [platform] is not used. *)
Definition _generate_search_queries (location platform date_range : string)
    : list string :=
  ["AI events " +:+ location +:+ " " +:+ date_range;
   "artificial intelligence conferences " +:+ location;
   "machine learning workshops " +:+ location;
   "AI startup events " +:+ location;
   "tech AI meetups " +:+ location;
   "deep learning talks " +:+ location;
   "AI networking events " +:+ location;
   "generative AI events " +:+ location].

(** [_execute_search] once the request has been answered: a JSON list
    is returned as it is, a JSON object alone in a list, anything else
    and every failure as the empty list. *)
Definition _execute_search (reply : completion) : list pyval :=
  match reply with
  | CallFailed _ => []
  | Content content =>
      match json_loads content with
      | Some (PList events) => events
      | Some (PDict d) => [PDict d]
      | Some _ => []
      | None => []
      end
  end.

(** The signature [f"{title}_{date_str}"] of [_deduplicate_events]; only
    a [dict] has [get] and only a [str] has [lower]. *)
Definition signature (event : pyval) : res string :=
  match event with
  | PDict d =>
      match get (to_map d) "title" (PStr "") with
      | PStr title =>
          Ok (strip (lower title) +:+ "_"
              +:+ py_str (get (to_map d) "date_time" (PStr "")))
      | _ => Raise (AttributeError "object has no attribute 'lower'")
      end
  | _ => Raise (AttributeError "object has no attribute 'get'")
  end.

(** The loop of [_deduplicate_events] from a given [seen_events] set. *)
Fixpoint dedup_from (seen_events : gset string) (events : list pyval)
    : res (list pyval) :=
  match events with
  | [] => Ok []
  | event :: rest =>
      sig ← signature event;
      if bool_decide (sig ∈ seen_events) then dedup_from seen_events rest
      else
        unique_events ← dedup_from ({[sig]} ∪ seen_events) rest;
        Ok (event :: unique_events)
  end.

Definition _deduplicate_events (events : list pyval) : res (list pyval) :=
  dedup_from ∅ events.

(** A candidate that went through [_deduplicate_events] is a [dict]. *)
Definition as_dict (event : pyval) : gmap string pyval :=
  match event with
  | PDict d => to_map d
  | _ => ∅
  end.

(** The searches of [search_events], one reply per query. *)
Fixpoint execute_all (queries : list string) (search_replies : nat → completion)
    (i : nat) : list pyval :=
  match queries with
  | [] => []
  | _ :: rest =>
      _execute_search (search_replies i) ++ execute_all rest search_replies (S i)
  end.

(** [search_events]: [search_replies i] answers the [i]-th query and
    [classify_replies j] the classification of the [j]-th unique
    candidate. *)
Definition search_events (cache : gmap string pyval)
    (location platform date_range : string)
    (search_replies classify_replies : nat → completion)
    : res (list (gmap string pyval)) * gmap string pyval :=
  let search_queries := _generate_search_queries location platform date_range in
  let all_events := execute_all search_queries search_replies 0 in
  match _deduplicate_events all_events with
  | Raise e => (Raise e, cache)
  | Ok unique_events =>
      classify_all json_loads title_hash cache (map as_dict unique_events)
                   classify_replies 0
  end.

End Search.

End Perplexity.

(** ** The HTTP handler ([api/api-events.py]) *)

Module ApiEvents.
Import Py Models.
Local Open Scope Z_scope.

(** [GET /events/{month}/{year}]; [session_id] is what the
    [get_session_id] dependency resolved. *)
Definition get_events_for_month (db : Db) (now_month now_year : Z)
    (month year : Z) (location category : option string)
    (min_relevance_score : option Z) (session_id : string)
    : res EventDiscovery.EventsResponse :=
  try_except
    (if negb ((1 <=? month) && (month <=? 12)) then
       Raise (HTTPException 400 "Month must be between 1 and 12")
     else if (year <? 2024) || (year >? 2030) then
       Raise (HTTPException 400 "Year must be between 2024 and 2030")
     else
       EventDiscovery.get_events_for_month db now_month now_year session_id
         location (Some month) (Some year) category
         (EventDiscovery.int_or min_relevance_score 5))
    (λ e, Raise (HTTPException 500 "Failed to retrieve events")).

(** The status of the response the framework sends. *)
Definition status_code {A} (r : res A) : Z :=
  match r with
  | Ok _ => 200
  | Raise (HTTPException code _) => code
  | Raise _ => 500
  end.

(** The [get_session_id] dependency of this router: the session of the
    cookie when it is valid, a new session otherwise.  [token] is the
    identifier a new session would get. *)
Definition get_session_id (db : Db) (cookie cf_ipcountry : option string)
    (token : string) (t_active t_check now : Datetime.datetime) : res string * Db :=
  let user_location :=
    match cf_ipcountry with
    | Some c => if String.eqb c "" then "Online" else c
    | None => "Online"
    end in
  let create db := SessionManager.create_session db token now (Some user_location) None in
  match cookie with
  | None => create db
  | Some session_id =>
      if String.eqb session_id "" then create db
      else
        match SessionManager.is_valid_session db session_id t_active t_check with
        | (Raise e, db1) => (Raise e, db1)
        | (Ok true, db1) => (Ok session_id, db1)
        | (Ok false, db1) => create db1
        end
  end.

(** The body of [POST /discover-events]. *)
Record DiscoverResponse : Type := mkDiscoverResponse {
  dr_success : bool;
  dr_message : string;
  dr_events : list EventDiscovery.EventSummary;
  dr_sessionId : string
}.

(** [platform] is [None] when the request gives an explicit null. *)
Definition discover_events
    (parse_date : Datetime.datetime → pyval → option Datetime.datetime)
    (float_parses : string → bool) (db : Db) (now_month now_year : Z)
    (location : string) (platform : option string) (month year : option Z)
    (session_id : string) (now : Datetime.datetime)
    (search : res (list (gmap string pyval)))
    (draws : nat → EventDiscovery.draw)
    (log_uuid : string) (log_now : Datetime.datetime)
    : res DiscoverResponse * Db :=
  let preferences : gmap string pyval :=
    <["location" := PStr location]>
    (<["platform" := match platform with Some p => PStr p | None => PNone end]> ∅) in
  let '(_, db1) :=
    SessionManager.update_session_preferences db session_id preferences now in
  let '(events, db2) :=
    match platform with
    | Some p =>
        EventDiscovery.discover_events parse_date float_parses db1 now_month now_year
          location p month year search draws log_uuid log_now
    | None => (Raise (ValueError "Platform None not supported"), db1)
    end in
  (match events with
   | Ok events =>
       Ok {| dr_success := true;
             dr_message := "Discovered " +:+ pretty (List.length events)
                           +:+ " AI-related events";
             dr_events := events;
             dr_sessionId := substring 0 8 session_id |}
   | Raise (ValueError msg) => Raise (HTTPException 400 msg)
   | Raise _ => Raise (HTTPException 500 "Failed to discover events")
   end, db2).

(** The body of [POST /events/watch]. *)
Record WatchResponse : Type := mkWatchResponse {
  wr_success : bool;
  wr_message : string;
  wr_eventId : string;
  wr_isWatched : bool
}.

Definition toggle_event_watch_status (db : Db) (event_id : string) (watch_status : bool)
    (session_id : string) (now : Datetime.datetime) : res WatchResponse * Db :=
  let '(success, action, db1) :=
    if watch_status then
      let '(success, db1) :=
        EventDiscovery.mark_event_watched db session_id event_id now in
      (success, "marked as watched", db1)
    else
      let '(success, db1) :=
        EventDiscovery.unmark_event_watched db session_id event_id in
      (success, "unmarked as watched", db1) in
  (try_except
     (if success then
        Ok {| wr_success := true;
              wr_message := "Event " +:+ action;
              wr_eventId := event_id;
              wr_isWatched := watch_status |}
      else Raise (HTTPException 400 "Failed to update watch status"))
     (λ e, Raise (HTTPException 500 "Failed to update watch status")),
   db1).

(** [GET /events/current]: the handler above called as a function, its
    [min_relevance_score] left at the default. *)
Definition get_current_month_events (db : Db) (now_month now_year : Z)
    (location category : option string) (session_id : string)
    : res EventDiscovery.EventsResponse :=
  get_events_for_month db now_month now_year now_month now_year location category
                       (Some 5) session_id.

End ApiEvents.

(** ** The preference handlers ([api/api-users.py]) *)

Module ApiUsers.
Import Py Models.
Local Open Scope Z_scope.

(** The [get_session_id] dependency of this router: no session is
    created here. *)
Definition get_session_id (db : Db) (cookie : option string)
    (t_active t_check : Datetime.datetime) : res string * Db :=
  let refuse := Raise (HTTPException 401 "Invalid or expired session") in
  match cookie with
  | None => (refuse, db)
  | Some session_id =>
      if String.eqb session_id "" then (refuse, db)
      else
        match SessionManager.is_valid_session db session_id t_active t_check with
        | (Raise e, db1) => (Raise e, db1)
        | (Ok true, db1) => (Ok session_id, db1)
        | (Ok false, db1) => (refuse, db1)
        end
  end.

Definition is_none (v : pyval) : bool :=
  match v with
  | PNone => true
  | _ => false
  end.

Record PreferencesResponse : Type := mkPreferencesResponse {
  pr_success : bool;
  pr_message : string;
  pr_preferences : gmap string pyval
}.

(** [PUT /preferences]; [request] is [request.dict()], with [None] under
    the fields that were not sent. *)
Definition update_user_preferences (db : Db) (request : gmap string pyval)
    (session_id : string) (now t_read : Datetime.datetime)
    : res PreferencesResponse * Db :=
  let preferences_update :=
    filter (λ kv : string * pyval, is_none kv.2 = false) request in
  if bool_decide (size preferences_update = 0%nat) then
    (Raise (HTTPException 400 "No preferences provided"), db)
  else
    let '(success, db1) :=
      SessionManager.update_session_preferences db session_id preferences_update now in
    if success then
      let '(updated_preferences, db2) :=
        SessionManager.get_user_preferences db1 session_id t_read in
      (Ok {| pr_success := true;
             pr_message := "Preferences updated successfully";
             pr_preferences := updated_preferences |}, db2)
    else (Raise (HTTPException 400 "Failed to update preferences"), db1).

End ApiUsers.

(** ** Notions the properties are stated with *)

Module Spec.
Import Py Datetime Models EventDiscovery SessionManager.
Local Open Scope Z_scope.

(** The check time is past [created_at] plus the lifetime. *)
Definition expired (s : UserSession) (t : datetime) : Prop :=
  t > us_created_at s + session_lifetime.

(** The [(title, date_time)] under which [_process_and_store_event]
    looks a candidate up, when the candidate passes its checks;
    [parse_date] is the date parser at the clock reading of the call. *)
Definition candidate_key (parse_date : pyval → option datetime)
    (raw_event : gmap string pyval) : option (string * datetime) :=
  match get raw_event "title" (PStr "") with
  | PStr s =>
      if String.eqb (strip s) "" then None
      else
        let date_str :=
          por (get raw_event "date_time" PNone) (get raw_event "date" PNone) in
        if truthy date_str then
          match parse_date date_str with
          | Some event_date => Some (strip s, event_date)
          | None => None
          end
        else None
  | _ => None
  end.

(** The number of rows that carry the triple. *)
Definition count_triple (title : string) (event_date : datetime) (platform : string)
    (rows : list Event) : nat :=
  List.length (List.filter (same_triple title event_date platform) rows).

(** No row of the list carries the triple. *)
Definition triple_free (title : string) (event_date : datetime) (platform : string)
    (rows : list Event) : Prop :=
  Forall (λ e, same_triple title event_date platform e = false) rows.

(** Two rows agree on every column but [ai_relevance_score] and
    [updated_at]. *)
Definition same_other_columns (e e' : Event) : Prop :=
  id e' = id e
  ∧ title e' = title e
  ∧ description e' = description e
  ∧ date_time e' = date_time e
  ∧ Models.location e' = Models.location e
  ∧ source_url e' = source_url e
  ∧ Models.platform e' = Models.platform e
  ∧ category e' = category e
  ∧ tags e' = tags e
  ∧ organizer e' = organizer e
  ∧ event_type e' = event_type e
  ∧ price e' = price e
  ∧ max_attendees e' = max_attendees e
  ∧ created_at e' = created_at e
  ∧ is_active e' = is_active e.

(** The score a re-discovery of [existing] by [raw_event] writes, for
    a candidate whose score is an integer, is [None] or is missing: the
    integer, NULL, or the stored score. *)
Definition rediscovered_score (raw_event : gmap string pyval) (existing : Event)
    (score : option number) : Prop :=
  (raw_event !! "ai_relevance_score" = None ∧ score = ai_relevance_score existing)
  ∨ (raw_event !! "ai_relevance_score" = Some PNone ∧ score = None)
  ∨ (∃ z, raw_event !! "ai_relevance_score" = Some (PInt z) ∧ score = Some (NInt z)).

(** The keys of a candidate that [_process_and_store_event] reads
    besides the title and the date. *)
Definition optional_keys : list string :=
  ["description"; "location"; "url"; "organizer"; "price"; "category";
   "ai_relevance_score"; "tags"; "event_type"].

(** The row stored for a candidate that has none of them. *)
Definition default_event (uuid title : string) (event_date : datetime)
    (platform : string) (created updated : datetime) : Event :=
  {| id := uuid; title := title; description := ""; date_time := event_date;
     location := "Online"; source_url := "https://" +:+ platform +:+ ".com";
     platform := platform; category := Some "Other";
     ai_relevance_score := Some (NInt 5);
     tags := PList []; organizer := ""; event_type := Some "unknown";
     price := FloatOf 0; max_attendees := None; created_at := created;
     updated_at := updated; is_active := true |}.

(** A candidate [_deduplicate_events] can take the signature of: a JSON
    object whose title, when it has one, is a string. *)
Definition well_formed_candidate (event : pyval) : Prop :=
  ∃ d, event = PDict d
       ∧ (Perplexity.to_map d !! "title" = None
          ∨ ∃ title, Perplexity.to_map d !! "title" = Some (PStr title)).

(** The event carries an integer score of at least 5. *)
Definition scored_relevant (event : gmap string pyval) : Prop :=
  ∃ z, event !! "ai_relevance_score" = Some (PInt z) ∧ 5 <= z.

(** The event carries a score that passes [>= 5]: an [int] of at least
    5 or a [float] of at least 5.0. *)
Definition score_passes (event : gmap string pyval) : Prop :=
  (∃ z, event !! "ai_relevance_score" = Some (PInt z) ∧ 5 <= z)
  ∨ (∃ f, event !! "ai_relevance_score" = Some (PFloat f)
          ∧ PrimFloat.leb (float_of_Z 5) f = true).

End Spec.

(** ** Sample data *)

Module Samples.
Import Py Datetime Models.
Local Open Scope Z_scope.

Definition at_ (year month day hour minute : Z) : datetime :=
  match mk_datetime year month day hour minute 0 with
  | Ok d => d
  | Raise _ => 0
  end.

Definition sample_event (id title : string) (date_time : datetime)
    (location platform : string) (category : option string) (score : Z) : Event :=
  {| id := id; title := title; description := ""; date_time := date_time;
     location := location; source_url := "https://" +:+ platform +:+ ".com";
     platform := platform; category := category;
     ai_relevance_score := Some (NInt score); tags := PList []; organizer := "";
     event_type := Some "unknown"; price := FloatOfInt 0; max_attendees := None;
     created_at := at_ 2025 1 1 9 0; updated_at := at_ 2025 1 1 9 0;
     is_active := true |}.

Definition summit : Event :=
  sample_event "e1" "AI Summit" (at_ 2025 1 15 10 0) "Berlin, Germany" "luma"
               (Some "Conference") 8.

Definition meetup : Event :=
  sample_event "e3" "GenAI Meetup" (at_ 2025 1 20 19 0) "berlin" "meetup"
               (Some "Meetup") 6.

(** A parser that knows the one date string of the samples, a full
    date and time that leaves nothing to be filled from the clock. *)
Definition sample_parse (today : datetime) (v : pyval) : option datetime :=
  match v with
  | PStr s => if String.eqb s "2025-01-15T10:00" then Some (at_ 2025 1 15 10 0)
              else None
  | _ => None
  end.

(** The candidate that re-discovers [summit], now scored 9. *)
Definition summit_again : gmap string pyval :=
  <["title" := PStr " AI Summit "]>
  (<["date_time" := PStr "2025-01-15T10:00"]>
  (<["location" := PStr "Berlin, Germany"]>
  (<["ai_relevance_score" := PInt 9]>
  (<["category" := PStr "Conference"]> ∅)))).

(** The candidate of [summit] with nothing but a title and a date. *)
Definition bare_summit : gmap string pyval :=
  <["title" := PStr " AI Summit "]>
  (<["date_time" := PStr "2025-01-15T10:00"]> ∅).

(** [summit] found twice by the search, the second time in capitals. *)
Definition found_summit : pyval :=
  PDict [("title", PStr "AI Summit"); ("date_time", PStr "2025-01-15T10:00")].

Definition found_summit_again : pyval :=
  PDict [("title", PStr " AI SUMMIT "); ("date_time", PStr "2025-01-15T10:00");
         ("url", PStr "https://lu.ma/ai-summit")].

(** [str] on the strings of the samples. *)
Definition sample_str (v : pyval) : string :=
  match v with
  | PStr s => s
  | _ => ""
  end.

(** A hash that tells the sample titles apart by their length. *)
Definition sample_hash (v : pyval) : Z :=
  match v with
  | PStr s => Z.of_nat (String.length s)
  | _ => 0
  end.

(** The text of a classification with a fractional score. *)
Definition scored_7_5 : string :=
  let quote := String (ascii_of_nat 34) EmptyString in
  "{" +:+ quote +:+ "ai_relevance_score" +:+ quote +:+ ": 7.5}".

(** A JSON parser that knows the empty object, the empty list and
    [scored_7_5]. *)
Definition sample_loads (content : string) : option pyval :=
  if String.eqb content "{}" then Some (PDict [])
  else if String.eqb content "[]" then Some (PList [])
  else if String.eqb content scored_7_5
  then Some (PDict [("ai_relevance_score", PFloat 7.5)])
  else None.

(** A session created on 1 January 2025 with the default preferences. *)
Definition january_session : UserSession :=
  {| us_created_at := at_ 2025 1 1 9 0;
     us_last_active := at_ 2025 1 1 9 0;
     us_preferences := Some (SessionManager.default_preferences "Online");
     us_location := Some "Online" |}.

Definition db_with_session : Db :=
  {| events := []; user_sessions := {["tok" := january_session]};
     watched_events := []; event_discovery_logs := [] |}.

Definition db_of (es : list Event) : Db :=
  {| events := es; user_sessions := ∅; watched_events := [];
     event_discovery_logs := [] |}.

(** [summit] and [meetup] stored, the session [tok] of 1 January
    stored, and [summit] watched by it. *)
Definition db_watching : Db :=
  {| events := [summit; meetup]; user_sessions := {["tok" := january_session]};
     watched_events := [mkWatchedEvent "tok" "e1" (at_ 2025 1 3 9 0) None None];
     event_discovery_logs := [] |}.

(** Clock readings and identifiers for the calls of a run. *)
Definition sample_draws (i : nat) : EventDiscovery.draw :=
  EventDiscovery.mkDraw (at_ 2025 1 2 0 0) (at_ 2025 1 2 8 0) (at_ 2025 1 2 8 0)
                        (pretty i).

End Samples.

(** * Properties *)

Module DatetimeFacts.
Import Py Datetime.
Local Open Scope Z_scope.

Ltac split_leb :=
  repeat match goal with
    | |- context [?a <=? ?b] => destruct (Z.leb_spec a b)
    | |- context [?a <? ?b] => destruct (Z.ltb_spec a b)
    | |- context [?a =? ?b] => destruct (Z.eqb_spec a b)
    end.

Lemma days_before_year_succ year :
  days_before_year (year + 1)
  = days_before_year year + (if is_leap year then 366 else 365).
Proof.
  unfold days_before_year, is_leap.
  replace (year + 1 - 1) with year by lia.
  destruct (year mod 4 =? 0) eqn:H4; destruct (year mod 100 =? 0) eqn:H100;
    destruct (year mod 400 =? 0) eqn:H400; simpl;
    rewrite ?Z.eqb_eq, ?Z.eqb_neq in *; Z.div_mod_to_equations; lia.
Qed.

Lemma days_before_year_bounds year :
  1 <= year <= 10000 → 0 <= days_before_year year <= 3652059.
Proof. intros. unfold days_before_year. Z.div_mod_to_equations. lia. Qed.

Lemma days_in_month_bounds year month : 28 <= days_in_month year month <= 31.
Proof. unfold days_in_month. destruct (is_leap year); split_leb; simpl; lia. Qed.

Lemma c_int_ok z : -2147483648 <= z <= 2147483647 → c_int z = Ok z.
Proof. intros Hz. unfold c_int. split_leb; try lia; reflexivity. Qed.

Lemma mk_date_ok year month day :
  1 <= year <= 9999 → 1 <= month <= 12 → 1 <= day <= days_in_month year month →
  mk_date year month day = Ok (ymd2ord year month day * us_per_day).
Proof.
  intros Hy Hm Hd. pose proof (days_in_month_bounds year month) as Hdim.
  unfold mk_date. rewrite !c_int_ok by lia. cbn [mbind res_bind bind].
  unfold MINYEAR, MAXYEAR. split_leb; simpl; try lia; reflexivity.
Qed.

Lemma ymd2ord_next_month year month :
  1 <= month < 12 →
  ymd2ord year (month + 1) 1 - 1 = ymd2ord year month (days_in_month year month).
Proof.
  intros Hm.
  assert (Hcases : month = 1 ∨ month = 2 ∨ month = 3 ∨ month = 4 ∨ month = 5
                   ∨ month = 6 ∨ month = 7 ∨ month = 8 ∨ month = 9 ∨ month = 10
                   ∨ month = 11) by lia.
  unfold ymd2ord, days_in_month.
  destruct Hcases as [->|[->|[->|[->|[->|[->|[->|[->|[->|[->| ->]]]]]]]]]];
    simpl; destruct (is_leap year); lia.
Qed.

Lemma ymd2ord_next_year year :
  ymd2ord (year + 1) 1 1 - 1 = ymd2ord year 12 (days_in_month year 12).
Proof.
  unfold ymd2ord. rewrite days_before_year_succ.
  change (days_before_month (year + 1) 1) with 0.
  change (days_in_month year 12) with 31.
  unfold days_before_month. destruct (is_leap year); lia.
Qed.

Lemma days_before_month_bounds year month :
  0 <= days_before_month year month <= 335.
Proof.
  unfold days_before_month.
  destruct (is_leap year); destruct month as [|p|p]; try lia;
    repeat (destruct p as [p|p|]; try lia).
Qed.

Lemma sub_one_day_ok year month day :
  1 <= year <= 10000 → (year = 10000 → month = 1 ∧ day = 1) →
  2 <= ymd2ord year month day → 1 <= day <= 31 →
  sub (ymd2ord year month day * us_per_day) (timedelta_days 1)
  = Ok ((ymd2ord year month day - 1) * us_per_day).
Proof.
  intros Hy Hlast Hlo Hd.
  assert (Hhi : ymd2ord year month day <= 3652060).
  { unfold ymd2ord in *.
    pose proof (days_before_month_bounds year month).
    destruct (Z.eq_dec year 10000) as [->|Hne].
    - destruct (Hlast eq_refl) as [-> ->]. vm_compute. discriminate.
    - pose proof (days_before_year_bounds (year + 1) ltac:(lia)) as Hb.
      rewrite days_before_year_succ in Hb.
      destruct (is_leap year) eqn:Hl; unfold days_before_month in *; rewrite ?Hl in *.
      all: destruct month as [|p|p]; try lia;
        repeat (destruct p as [p|p|]; try lia). }
  unfold sub, add, timedelta_days.
  change min_datetime with (1 * us_per_day).
  change max_datetime with (3652060 * us_per_day - 1).
  unfold us_per_day in *.
  split_leb; simpl; try lia. f_equal. lia.
Qed.

Lemma month_bounds_ok year month :
  1 <= year <= 9999 → 1 <= month <= 12 → (month = 12 → year < 9999) →
  month_bounds year month
  = Ok (ymd2ord year month 1 * us_per_day,
        ymd2ord year month (days_in_month year month) * us_per_day).
Proof.
  intros Hy Hm Hlast.
  pose proof (days_in_month_bounds year month) as Hdim.
  pose proof (days_before_year_bounds year ltac:(lia)) as Hby.
  pose proof (days_before_month_bounds year month) as Hbm.
  unfold month_bounds.
  rewrite (mk_date_ok year month 1) by lia. cbn [mbind res_bind bind].
  destruct (Z.eqb_spec month 12) as [->|Hne].
  - rewrite (mk_date_ok (year + 1) 1 1)
      by (try (pose proof (days_in_month_bounds (year + 1) 1)); lia).
    cbn [mbind res_bind bind].
    rewrite sub_one_day_ok; try lia.
    + cbn [mbind res_bind bind]. rewrite ymd2ord_next_year. reflexivity.
    + pose proof (days_before_year_bounds (year + 1) ltac:(lia)).
      unfold ymd2ord. rewrite days_before_year_succ in *.
      change (days_before_month (year + 1) 1) with 0. destruct (is_leap year); lia.
  - rewrite (mk_date_ok year (month + 1) 1)
      by (try (pose proof (days_in_month_bounds year (month + 1))); lia).
    cbn [mbind res_bind bind].
    rewrite sub_one_day_ok; try lia.
    + cbn [mbind res_bind bind]. rewrite ymd2ord_next_month by lia. reflexivity.
    + rewrite <- (Z.sub_add 1 (ymd2ord year (month + 1) 1)).
      rewrite ymd2ord_next_month by lia. unfold ymd2ord. lia.
Qed.
End DatetimeFacts.

(** ** The query service *)

Module QueryFacts.
Import Py Datetime Models EventDiscovery Spec DatetimeFacts.
Local Open Scope Z_scope.

Lemma int_or_some v d : v ≠ 0 → int_or (Some v) d = v.
Proof. intros Hv. unfold int_or. by destruct (Z.eqb_spec v 0). Qed.

(** With the month's bounds computed, the call comes to the session
    block, which raises. *)
Lemma query_reaches_session_block
    db now_month now_year session_id location month year category floor :
  1 <= month <= 12 → 1 <= year <= 9999 → (month = 12 → year < 9999) →
  get_events_for_month db now_month now_year session_id location (Some month)
                       (Some year) category floor
  = Raise session_error.
Proof.
  intros Hm Hy Hlast. unfold get_events_for_month.
  rewrite !int_or_some by lia. by rewrite month_bounds_ok by lia.
Qed.

(** C1.  For every valid (month, year) pair, whatever the store, the
    filters and the floor, [get_events_for_month] returns no events: it
    computes the bounds of the month and then raises the [TypeError] of
    its session block. *)
Theorem get_events_for_month_raises
    db now_month now_year session_id location month year category floor :
  1 <= month <= 12 → 1 <= year <= 9999 → (month = 12 → year < 9999) →
  get_events_for_month db now_month now_year session_id location (Some month)
                       (Some year) category floor
  = Raise session_error.
Proof. apply query_reaches_session_block. Qed.

Lemma get_events_for_month_raises_witness :
  get_events_for_month (Samples.db_of [Samples.summit]) 6 2026 "tok" None (Some 1)
                       (Some 2025) None 5
  = Raise session_error.
Proof. apply get_events_for_month_raises; lia. Defined.

Lemma query_always_raises
    db now_month now_year session_id location month year category floor :
  ∃ e, get_events_for_month db now_month now_year session_id location month year
                            category floor = Raise e.
Proof.
  unfold get_events_for_month.
  destruct (month_bounds _ _) as [[start_date end_date]|e];
    cbn [mbind res_bind bind async_with_db fst]; eauto.
Qed.

(** C3.  No call of [get_events_for_month] returns a response, so no
    [eventsByCategory] grouping and no [totalEvents] is ever produced:
    every call raises, [ValueError] or [OverflowError] from the month's
    bounds or else the [TypeError] of the session block. *)
Theorem get_events_for_month_returns_no_grouping
    db now_month now_year session_id location month year category floor :
  ∃ e, get_events_for_month db now_month now_year session_id location month year
                            category floor = Raise e
       ∧ ∀ r : EventsResponse,
           get_events_for_month db now_month now_year session_id location month year
                                category floor ≠ Ok r.
Proof.
  destruct (query_always_raises db now_month now_year session_id location month year
              category floor) as [e He].
  exists e. split; [exact He|]. intros r. rewrite He. discriminate.
Qed.

(** C10.  A category that is not one of the six fixed names does not
    get the result of the query without a category: for a valid (month,
    year) pair the call raises the [TypeError] of the session block, as
    the call without a category does. *)
Theorem unknown_category_raises
    db now_month now_year session_id location month year category floor :
  1 <= month <= 12 → 1 <= year <= 9999 → (month = 12 → year < 9999) →
  in_list category event_categories = false →
  get_events_for_month db now_month now_year session_id location (Some month)
                       (Some year) (Some category) floor
  = Raise session_error
  ∧ get_events_for_month db now_month now_year session_id location (Some month)
                         (Some year) None floor
    = Raise session_error.
Proof.
  intros Hm Hy Hlast _. split; by apply query_reaches_session_block.
Qed.

Lemma unknown_category_raises_witness :
  get_events_for_month (Samples.db_of [Samples.meetup]) 6 2026 "tok" None (Some 1)
                       (Some 2025) (Some "Meetup") 5
  = Raise session_error
  ∧ get_events_for_month (Samples.db_of [Samples.meetup]) 6 2026 "tok" None (Some 1)
                         (Some 2025) None 5
    = Raise session_error.
Proof. apply unknown_category_raises; [lia|lia|lia|reflexivity]. Defined.

End QueryFacts.

(** ** The discovery pipeline *)

Module PipelineFacts.
Import Py Datetime Models EventDiscovery Spec.
Local Open Scope Z_scope.

Lemma filter_triple_free (f : Event → bool) rows :
  Forall (λ e, f e = false) rows → List.filter f rows = [].
Proof.
  induction 1 as [|e rows He _ IH]; [done|]. cbn [List.filter]. by rewrite He.
Qed.

Lemma map_triple_free (f : Event → bool) (g : Event → Event) rows :
  Forall (λ e, f e = false) rows → map (λ e, if f e then g e else e) rows = rows.
Proof.
  induction 1 as [|e rows He _ IH]; [done|]. cbn [map]. by rewrite He, IH.
Qed.

Lemma filter_single (f : Event → bool) pre existing post :
  f existing = true → Forall (λ e, f e = false) (pre ++ post) →
  List.filter f (pre ++ existing :: post) = [existing].
Proof.
  intros He [Hpre Hpost]%Forall_app.
  rewrite List.filter_app. cbn [List.filter]. rewrite He.
  by rewrite !filter_triple_free.
Qed.

Lemma map_single (f : Event → bool) (g : Event → Event) pre existing post :
  f existing = true → Forall (λ e, f e = false) (pre ++ post) →
  map (λ e, if f e then g e else e) (pre ++ existing :: post)
  = pre ++ g existing :: post.
Proof.
  intros He [Hpre Hpost]%Forall_app.
  rewrite map_app. cbn [map]. rewrite He. by rewrite !map_triple_free.
Qed.

Lemma count_triple_free title event_date platform rows :
  count_triple title event_date platform rows = 0%nat
  ↔ triple_free title event_date platform rows.
Proof.
  unfold count_triple, triple_free. induction rows as [|e rows IH]; [done|].
  cbn [List.filter]. rewrite Forall_cons.
  destruct (same_triple title event_date platform e); cbn [List.length].
  - split; [done|]. by intros [? _].
  - rewrite IH. tauto.
Qed.


Section WithParsers.
Variable parse_date : datetime → pyval → option datetime.
Variable float_parses : string → bool.

Local Abbreviation process := (_process_and_store_event parse_date float_parses).

Lemma process_invalid db raw_event platform today now updated uuid :
  candidate_key (parse_date today) raw_event = None →
  process db raw_event platform today now updated uuid = (None, db).
Proof.
  unfold _process_and_store_event, process_body, candidate_key.
  destruct (get raw_event "title" (PStr "")) as [| | | |s| |];
    cbn [strip_val mbind res_bind bind]; try done.
  destruct (String.eqb (strip s) ""); [done|].
  destruct (truthy (por _ _)); cbn [negb]; [|done].
  by destruct (parse_date _ _).
Qed.

(** A candidate under a triple that no row carries is stored exactly
    when its [Event] can be built. *)
Lemma process_fresh db raw_event platform today now updated uuid title event_date :
  candidate_key (parse_date today) raw_event = Some (title, event_date) →
  triple_free title event_date platform (events db) →
  process db raw_event platform today now updated uuid
  = match new_event float_parses raw_event title event_date platform now updated
                    uuid with
    | Ok event => (Some (summary_of event), set_events db (events db ++ [event]))
    | Raise _ => (None, db)
    end.
Proof.
  unfold _process_and_store_event, process_body, candidate_key.
  destruct (get raw_event "title" (PStr "")) as [| | | |s| |];
    cbn [strip_val mbind res_bind bind]; try done.
  destruct (String.eqb (strip s) ""); [done|].
  destruct (truthy (por _ _)); cbn [negb]; [|done].
  destruct (parse_date _ _) as [d|]; [|done].
  intros [= <- <-] Hfree. rewrite (filter_triple_free _ _ Hfree).
  cbn [scalar_one_or_none mbind res_bind bind].
  by destruct (new_event _ _ _ _ _ _ _ _).
Qed.

(** A candidate under a triple that exactly one row carries refreshes
    that row when its score binds, and changes nothing otherwise. *)
Lemma process_stored
    db raw_event platform today now updated uuid title event_date pre existing post :
  candidate_key (parse_date today) raw_event = Some (title, event_date) →
  events db = pre ++ existing :: post →
  same_triple title event_date platform existing = true →
  triple_free title event_date platform (pre ++ post) →
  process db raw_event platform today now updated uuid
  = match (match raw_event !! "ai_relevance_score" with
           | Some v => bind_int v
           | None => Ok (ai_relevance_score existing)
           end) with
    | Ok score => (None, set_events db (pre ++ refresh now score existing :: post))
    | Raise _ => (None, db)
    end.
Proof.
  unfold _process_and_store_event, process_body, candidate_key.
  destruct (get raw_event "title" (PStr "")) as [| | | |s| |];
    cbn [strip_val mbind res_bind bind]; try done.
  destruct (String.eqb (strip s) ""); [done|].
  destruct (truthy (por _ _)); cbn [negb]; [|done].
  destruct (parse_date _ _) as [d|]; [|done].
  intros [= <- <-] Hrows He Hfree. rewrite Hrows.
  rewrite (filter_single _ _ _ _ He Hfree).
  cbn [scalar_one_or_none mbind res_bind bind].
  destruct (match raw_event !! "ai_relevance_score" with
            | Some v => bind_int v
            | None => Ok (ai_relevance_score existing)
            end) as [score|]; cbn [mbind res_bind bind]; [|done].
  by rewrite (map_single _ _ _ _ _ He Hfree).
Qed.

(** With at least one row under the triple the call returns [None]
    and the table keeps its length. *)
Lemma process_matched db raw_event platform today now updated uuid title event_date :
  candidate_key (parse_date today) raw_event = Some (title, event_date) →
  count_triple title event_date platform (events db) ≠ 0%nat →
  (process db raw_event platform today now updated uuid).1 = None
  ∧ List.length (events (process db raw_event platform today now updated uuid).2)
    = List.length (events db).
Proof.
  unfold _process_and_store_event, process_body, candidate_key, count_triple.
  destruct (get raw_event "title" (PStr "")) as [| | | |s| |];
    cbn [strip_val mbind res_bind bind]; try done.
  destruct (String.eqb (strip s) ""); [done|].
  destruct (truthy (por _ _)); cbn [negb]; [|done].
  destruct (parse_date _ _) as [d|]; [|done].
  intros [= <- <-] Hcount.
  destruct (List.filter _ (events db)) as [|existing [|]];
    cbn [scalar_one_or_none mbind res_bind bind]; [done| |done].
  destruct (match raw_event !! "ai_relevance_score" with
            | Some v => bind_int v
            | None => Ok (ai_relevance_score existing)
            end) as [score|]; cbn [mbind res_bind bind fst snd]; [|done].
  split; [done|]. cbn [events set_events]. by rewrite length_map.
Qed.

Lemma refresh_columns now score e :
  ai_relevance_score (refresh now score e) = score
  ∧ updated_at (refresh now score e) = now
  ∧ same_other_columns e (refresh now score e).
Proof. unfold same_other_columns. cbn. repeat split. Qed.

Lemma rediscovered_score_binds raw_event existing score :
  rediscovered_score raw_event existing score →
  match raw_event !! "ai_relevance_score" with
  | Some v => bind_int v
  | None => Ok (ai_relevance_score existing)
  end = Ok score.
Proof. by intros [[-> ->]|[[-> ->]|(z & -> & ->)]]. Qed.

Lemma new_event_fields raw_event title event_date platform created updated uuid event :
  new_event float_parses raw_event title event_date platform created updated uuid
  = Ok event →
  id event = uuid ∧ Models.title event = title ∧ date_time event = event_date
  ∧ Models.platform event = platform ∧ is_active event = true
  ∧ created_at event = created ∧ updated_at event = updated
  ∧ bind_int (get raw_event "ai_relevance_score" (PInt 5))
    = Ok (ai_relevance_score event)
  ∧ bind_text (get raw_event "category" (PStr "Other")) = Ok (category event).
Proof.
  unfold new_event.
  repeat (match goal with
          | |- context [mbind _ ?m] => destruct m eqn:?; cbn [mbind res_bind bind]
          end; try discriminate).
  intros [= <-]. cbn. repeat split; congruence.
Qed.


Lemma same_triple_new raw_event title event_date platform created updated uuid event :
  new_event float_parses raw_event title event_date platform created updated uuid
  = Ok event →
  same_triple title event_date platform event = true.
Proof.
  intros (_ & Ht & Hd & Hp & _)%new_event_fields. unfold same_triple.
  by rewrite Ht, Hd, Hp, !String.eqb_refl, Z.eqb_refl.
Qed.


(** C5.  [_process_and_store_event], whose results other than [None]
    make up the list [discover_events] returns, yields a summary only
    for a candidate it inserts.  A candidate whose triple one stored row
    carries has that row's [ai_relevance_score] and [updated_at]
    refreshed and yields [None]; a summary that is returned is the one
    of a row appended under a triple no row carried; and a call that
    yields [None] leaves the number of rows as it was. *)
Theorem only_inserted_candidates_are_returned
    db raw_event platform today now updated uuid title event_date :
  candidate_key (parse_date today) raw_event = Some (title, event_date) →
  let '(r, db') := process db raw_event platform today now updated uuid in
  (∀ pre existing post score,
     events db = pre ++ existing :: post →
     same_triple title event_date platform existing = true →
     triple_free title event_date platform (pre ++ post) →
     rediscovered_score raw_event existing score →
     r = None
     ∧ ∃ existing',
         events db' = pre ++ existing' :: post
         ∧ ai_relevance_score existing' = score
         ∧ updated_at existing' = now
         ∧ same_other_columns existing existing')
  ∧ (∀ s, r = Some s →
          triple_free title event_date platform (events db)
          ∧ ∃ event, events db' = events db ++ [event]
                     ∧ s = summary_of event
                     ∧ same_triple title event_date platform event = true)
  ∧ (r = None → List.length (events db') = List.length (events db)).
Proof.
  intros Hkey.
  destruct (decide (count_triple title event_date platform (events db) = 0%nat))
    as [Hzero|Hcount].
  - apply count_triple_free in Hzero as Hfree.
    rewrite (process_fresh _ _ _ _ _ _ _ _ _ Hkey Hfree).
    assert (Hnone : ∀ pre existing post,
              events db = pre ++ existing :: post →
              same_triple title event_date platform existing = true → False).
    { intros pre existing post Hrows He. unfold triple_free in Hfree.
      rewrite Hrows in Hfree. apply Forall_app in Hfree as [_ Hfree].
      apply Forall_cons in Hfree as [Hfree _]. congruence. }
    destruct (new_event _ _ _ _ _ _ _ _) as [event|err] eqn:Hnew.
    + split; [intros pre existing post score Hrows He; by destruct (Hnone _ _ _ Hrows He)|].
      split; [|intros ?; discriminate].
      intros s [= <-]. split; [done|]. exists event. cbn [events set_events].
      split; [done|]. split; [done|]. by eapply same_triple_new.
    + split; [intros pre existing post score Hrows He; by destruct (Hnone _ _ _ Hrows He)|].
      split; [intros s ?; discriminate|done].
  - pose proof (process_matched db raw_event platform today now updated uuid _ _
                  Hkey Hcount) as [Hr Hlen].
    pose proof (λ pre existing post,
                  process_stored db raw_event platform today now updated uuid _ _
                                 pre existing post Hkey) as Hstored.
    destruct (process db raw_event platform today now updated uuid) as [r db'].
    cbn [fst snd] in Hr, Hlen. subst r. split; [|split; [intros s ?; discriminate|done]].
    intros pre existing post score Hrows He Hfree Hscore. split; [done|].
    specialize (Hstored pre existing post Hrows He Hfree).
    rewrite (rediscovered_score_binds _ _ _ Hscore) in Hstored.
    injection Hstored as ->. cbn [events set_events].
    exists (refresh now score existing). split; [done|]. apply refresh_columns.
Qed.

End WithParsers.

Import Samples.


Lemma only_inserted_candidates_are_returned_witness :
  let '(r, db') :=
    _process_and_store_event sample_parse (λ _, true) (db_of [summit]) summit_again
                             "luma" (at_ 2025 1 2 0 0) (at_ 2025 1 2 8 0)
                             (at_ 2025 1 2 8 1) "u1" in
  r = None
  ∧ ∃ existing',
      events db' = [] ++ existing' :: []
      ∧ ai_relevance_score existing' = Some (NInt 9)
      ∧ updated_at existing' = at_ 2025 1 2 8 0.
Proof.
  pose proof (only_inserted_candidates_are_returned sample_parse (λ _, true)
                (db_of [summit]) summit_again "luma" (at_ 2025 1 2 0 0)
                (at_ 2025 1 2 8 0) (at_ 2025 1 2 8 1) "u1" "AI Summit"
                (at_ 2025 1 15 10 0) eq_refl) as H.
  destruct (_process_and_store_event _ _ _ _ _ _ _ _ _) as [r db'].
  destruct H as (Hstored & _).
  destruct (Hstored [] summit [] (Some (NInt 9)))
    as (Hr & existing' & Hrows & Hscore & Hupdated & _).
  - reflexivity.
  - reflexivity.
  - constructor.
  - right. right. exists 9. split; reflexivity.
  - split; [exact Hr|]. exists existing'. split; [exact Hrows|].
    split; [exact Hscore|exact Hupdated].
Defined.

(** C5 as worded fails: the candidate that re-discovers the stored
    [summit] raises its score from 8 to 9 and refreshes [updated_at], and
    the call yields [None], no summary. *)
Lemma updated_candidate_returns_nothing :
  ∃ existing',
    _process_and_store_event sample_parse (λ _, true) (db_of [summit]) summit_again
                             "luma" (at_ 2025 1 2 0 0) (at_ 2025 1 2 8 0)
                             (at_ 2025 1 2 8 1) "u1"
    = (None, db_of [existing'])
    ∧ ai_relevance_score summit = Some (NInt 8)
    ∧ ai_relevance_score existing' = Some (NInt 9)
    ∧ updated_at summit = at_ 2025 1 1 9 0
    ∧ updated_at existing' = at_ 2025 1 2 8 0
    ∧ is_active summit = true.
Proof.
  exists (refresh (at_ 2025 1 2 8 0) (Some (NInt 9)) summit).
  repeat split; reflexivity.
Qed.

End PipelineFacts.

(** ** The watch toggle *)

Module WatchFacts.
Import Py Datetime Models EventDiscovery Spec.
Local Open Scope Z_scope.

Lemma watch_toggles_fail db session_id event_id now :
  mark_event_watched db session_id event_id now = (false, db)
  ∧ unmark_event_watched db session_id event_id = (false, db).
Proof.
  unfold mark_event_watched, unmark_event_watched, async_with_db, or_return.
  split; reflexivity.
Qed.

(** C6.  Neither toggle ever succeeds: [mark_event_watched] and
    [unmark_event_watched] open their session block inside a [try], the
    block raises, and [except Exception] returns [False]; no row is
    written or removed.  So marking a pair that is already watched and
    unmarking one that is not both return [False], where the claim has
    [True]. *)
Theorem watch_toggles_always_fail db session_id event_id now :
  mark_event_watched db session_id event_id now = (false, db)
  ∧ unmark_event_watched db session_id event_id = (false, db).
Proof. apply watch_toggles_fail. Qed.

Lemma watch_toggles_always_fail_witness :
  mark_event_watched Samples.db_watching "tok" "e1" (Samples.at_ 2025 1 4 9 0)
  = (false, Samples.db_watching)
  ∧ unmark_event_watched Samples.db_watching "tok" "e3" = (false, Samples.db_watching).
Proof.
  split.
  - exact (proj1 (watch_toggles_always_fail Samples.db_watching "tok" "e1"
                    (Samples.at_ 2025 1 4 9 0))).
  - exact (proj2 (watch_toggles_always_fail Samples.db_watching "tok" "e3" 0)).
Defined.

End WatchFacts.

(** ** Sessions *)

Module SessionFacts.
Import Py Datetime Models SessionManager Spec.
Local Open Scope Z_scope.

(** [get_session] finds nothing: its session block raises and the
    handler returns [None]. *)
Lemma get_session_none db session_id now :
  get_session db session_id now = (None, db).
Proof. reflexivity. Qed.

Lemma is_valid_session_false db session_id t_active t_check :
  is_valid_session db session_id t_active t_check = (Ok false, db).
Proof.
  unfold is_valid_session. rewrite get_session_none.
  by destruct (String.eqb session_id "").
Qed.

Lemma update_session_preferences_false db session_id preferences now :
  update_session_preferences db session_id preferences now = (false, db).
Proof. reflexivity. Qed.

Lemma create_session_raises db session_id now location preferences :
  create_session db session_id now location preferences = (Raise session_error, db).
Proof. reflexivity. Qed.

(** C7.  [is_valid_session] answers [False] for every token, at every
    time, and deletes nothing: [get_session] returns [None] because its
    session block raises inside its [try].  So a stored session that has
    not expired is reported invalid, and an expired one is left in the
    store. *)
Theorem is_valid_session_always_false db session_id t_active t_check :
  is_valid_session db session_id t_active t_check = (Ok false, db).
Proof. apply is_valid_session_false. Qed.

Lemma is_valid_session_always_false_witness :
  is_valid_session Samples.db_with_session "tok" (Samples.at_ 2025 1 10 9 0)
                   (Samples.at_ 2025 1 10 9 0)
  = (Ok false, Samples.db_with_session)
  ∧ is_valid_session Samples.db_with_session "tok" (Samples.at_ 2025 2 15 12 0)
                     (Samples.at_ 2025 2 15 12 0)
    = (Ok false, Samples.db_with_session).
Proof. split; apply is_valid_session_always_false. Defined.

(** C9.  [update_session_preferences] returns [False] for every
    session and every partial map and writes nothing: its session block
    raises inside the [try].  After the two calls of the scenario,
    with [{"theme": "light"}] and then [{"location": "Berlin"}], the
    stored preferences and the location column are what they were. *)
Theorem update_session_preferences_always_fails
    db session_id preferences1 now1 preferences2 now2 :
  update_session_preferences db session_id preferences1 now1 = (false, db)
  ∧ update_session_preferences
      (update_session_preferences db session_id preferences1 now1).2 session_id
      preferences2 now2
    = (false, db).
Proof.
  rewrite (update_session_preferences_false db session_id preferences1 now1).
  cbn [snd]. split; [reflexivity|apply update_session_preferences_false].
Qed.

Lemma update_session_preferences_always_fails_witness :
  update_session_preferences Samples.db_with_session "tok" {["theme" := PStr "light"]}
                             (Samples.at_ 2025 1 5 9 0)
  = (false, Samples.db_with_session)
  ∧ update_session_preferences
      (update_session_preferences Samples.db_with_session "tok"
                                  {["theme" := PStr "light"]}
                                  (Samples.at_ 2025 1 5 9 0)).2
      "tok" {["location" := PStr "Berlin"]} (Samples.at_ 2025 1 6 9 0)
    = (false, Samples.db_with_session).
Proof. apply update_session_preferences_always_fails. Defined.

End SessionFacts.

(** ** The classification client *)

Module ClientFacts.
Import Py Perplexity.

Section WithJson.
Variable json_loads : string → option pyval.
Variable title_hash : pyval → Z.

(** C8.  On a cache miss, when the message content is not JSON,
    [classify_event] does not raise: it returns the fallback record,
    with score 5, category "Other", no tags and event type "unknown",
    and leaves the cache as it was.  In the classification loop of
    [search_events] such a candidate is kept, with the fallback merged
    into it, and the loop goes on with the remaining candidates. *)
Theorem classify_event_fallback cache event_data content rest replies i :
  cache !! cache_key title_hash event_data = None →
  json_loads content = None →
  replies i = Content content →
  classify_event json_loads title_hash cache event_data (Content content)
  = (Ok fallback, cache)
  ∧ (∃ fields,
       fallback = PDict fields
       ∧ to_map fields !! "ai_relevance_score" = Some (PInt 5)
       ∧ to_map fields !! "category" = Some (PStr "Other")
       ∧ to_map fields !! "tags" = Some (PList [])
       ∧ to_map fields !! "event_type" = Some (PStr "unknown")
       ∧ classify_all json_loads title_hash cache (event_data :: rest) replies i
         = let '(classified, cache') :=
             classify_all json_loads title_hash cache rest replies (S i) in
           (classified ← classified;
            Ok (update event_data (to_map fields) :: classified), cache')).
Proof.
  intros Hmiss Hparse Hreply.
  assert (Hc : classify_event json_loads title_hash cache event_data (Content content)
               = (Ok fallback, cache)).
  { unfold classify_event. by rewrite Hmiss, Hparse. }
  split; [exact Hc|].
  eexists. split; [reflexivity|].
  split; [reflexivity|]. split; [reflexivity|]. split; [reflexivity|].
  split; [reflexivity|].
  cbn [classify_all]. rewrite Hreply, Hc.
  destruct (classify_all json_loads title_hash cache rest replies (S i)).
  reflexivity.
Qed.

End WithJson.

Lemma classify_event_fallback_witness :
  classify_event (λ _, None) (λ _, 0%Z) ∅ (<["title" := PStr "AI Summit"]> ∅)
                 (Content "not json")
  = (Ok fallback, ∅)
  ∧ classify_all (λ _, None) (λ _, 0%Z) ∅
                 [<["title" := PStr "AI Summit"]> ∅; <["title" := PStr "ML Night"]> ∅]
                 (λ _, Content "not json") 0
    = (Ok [update (<["title" := PStr "AI Summit"]> ∅)
               (to_map [("ai_relevance_score", PInt 5); ("category", PStr "Other");
                        ("tags", PList []); ("event_type", PStr "unknown");
                        ("reasoning", PStr "Classification parsing failed")]);
           update (<["title" := PStr "ML Night"]> ∅)
               (to_map [("ai_relevance_score", PInt 5); ("category", PStr "Other");
                        ("tags", PList []); ("event_type", PStr "unknown");
                        ("reasoning", PStr "Classification parsing failed")])], ∅).
Proof.
  destruct (classify_event_fallback (λ _, None) (λ _, 0%Z) ∅
              (<["title" := PStr "AI Summit"]> ∅) "not json"
              [<["title" := PStr "ML Night"]> ∅] (λ _, Content "not json") 0
              (lookup_empty _) eq_refl eq_refl)
    as (H1 & fields & [= <-] & _ & _ & _ & _ & H2).
  split; [exact H1|]. rewrite H2. reflexivity.
Defined.

End ClientFacts.

(** ** The HTTP handler *)

Module ApiFacts.
Import Py Models ApiEvents.
Local Open Scope Z_scope.

(** C4 (what the code does).  For a month outside [1,12] or a year
    outside [2024,2030] the handler raises the 400 error inside its own
    [try] block, whose [except Exception] clause catches it and raises
    the 500 error instead: the response status is 500, never 400. *)
Theorem invalid_month_or_year_gives_500
    db now_month now_year month year location category min_relevance_score session_id :
  ¬ (1 <= month <= 12) ∨ ¬ (2024 <= year <= 2030) →
  get_events_for_month db now_month now_year month year location category
                       min_relevance_score session_id
  = Raise (HTTPException 500 "Failed to retrieve events")
  ∧ status_code (get_events_for_month db now_month now_year month year location
                                      category min_relevance_score session_id) = 500.
Proof.
  intros Hbad.
  assert (H : get_events_for_month db now_month now_year month year location category
                                   min_relevance_score session_id
              = Raise (HTTPException 500 "Failed to retrieve events")).
  { unfold get_events_for_month.
    destruct (negb ((1 <=? month) && (month <=? 12))) eqn:Hm; [reflexivity|].
    destruct ((year <? 2024) || (year >? 2030)) eqn:Hy; [reflexivity|].
    exfalso. apply negb_false_iff, andb_true_iff in Hm as [Hm1 Hm2].
    apply orb_false_iff in Hy as [Hy1 Hy2].
    apply Z.leb_le in Hm1, Hm2. apply Z.ltb_ge in Hy1.
    rewrite Z.gtb_ltb in Hy2. apply Z.ltb_ge in Hy2. lia. }
  by rewrite H.
Qed.

Lemma invalid_month_or_year_gives_500_witness :
  status_code (get_events_for_month (Samples.db_of []) 6 2026 13 2025 None None
                                    (Some 5) "s1") = 500.
Proof.
  apply (invalid_month_or_year_gives_500 (Samples.db_of []) 6 2026 13 2025 None None
           (Some 5) "s1").
  left. lia.
Defined.

End ApiFacts.

(** * Further properties of the code *)

(** ** The engine *)

Module EngineMore.
Import Py Datetime Models EventDiscovery Spec DatetimeFacts PipelineFacts.
Local Open Scope Z_scope.

Section WithParsers.
Variable parse_date : datetime → pyval → option datetime.
Variable float_parses : string → bool.

Local Abbreviation process := (_process_and_store_event parse_date float_parses).

(** X1.  A candidate without a usable title or date is skipped: a missing,
    empty, blank or non-string title, a missing or empty date, or a date
    the parser refuses give [None] and leave the database as it is. *)
Theorem invalid_candidate_is_skipped db raw_event platform today now updated uuid :
  candidate_key (parse_date today) raw_event = None →
  process db raw_event platform today now updated uuid = (None, db).
Proof. apply process_invalid. Qed.

(** X2.  A candidate that brings nothing but a title and a date, under a
    triple no row carries, is stored with the defaults: category "Other",
    score 5, location "Online", the platform's home page as source, event
    type "unknown", price 0.0, active, [created_at] and [updated_at] the
    two clock readings of the insert. *)
Theorem bare_candidate_gets_defaults
    db raw_event platform today now updated uuid title event_date :
  candidate_key (parse_date today) raw_event = Some (title, event_date) →
  count_triple title event_date platform (events db) = 0%nat →
  (∀ k, k ∈ optional_keys → raw_event !! k = None) →
  process db raw_event platform today now updated uuid
  = (Some (summary_of (default_event uuid title event_date platform now updated)),
     set_events db
       (events db ++ [default_event uuid title event_date platform now updated])).
Proof.
  intros Hkey Hcount%count_triple_free Hbare.
  rewrite (process_fresh _ _ _ _ _ _ _ _ _ _ _ Hkey Hcount).
  assert (Hget : ∀ k v, k ∈ optional_keys → get raw_event k v = v).
  { intros k v Hk. unfold get. by rewrite (Hbare k Hk). }
  unfold new_event.
  rewrite !Hget by (unfold optional_keys; set_solver).
  reflexivity.
Qed.

(** X4.  A run that is refused, for its platform or for its month and
    year, writes nothing: the exception leaves [discover_events] before
    any row, a log row included, is added. *)
Theorem refused_run_writes_nothing
    db now_month now_year location platform month year search draws
    log_uuid log_now :
  in_list platform supported_platforms = false
  ∨ (∃ e, month_bounds (int_or year now_year) (int_or month now_month) = Raise e) →
  ∃ e, discover_events parse_date float_parses db now_month now_year location platform
                       month year search draws log_uuid log_now
       = (Raise e, db).
Proof.
  intros Hbad. unfold discover_events.
  destruct (in_list platform supported_platforms) eqn:Hp; cbn [negb]; [|eauto].
  destruct Hbad as [?|[e ->]]; [discriminate|eauto].
Qed.

(** X5.  No run of [discover_events] completes.  Past the argument
    checks the call raises the [TypeError] of a session block and
    writes nothing, no event and no log row: when the search returned
    candidates, the block of the [try] raises and then the block of the
    [except] handler; when the search raised, the handler's block
    raises, and its [TypeError] replaces the exception of the search. *)
Theorem discover_events_never_completes
    db now_month now_year location platform month year search draws
    log_uuid log_now bounds :
  in_list platform supported_platforms = true →
  month_bounds (int_or year now_year) (int_or month now_month) = Ok bounds →
  discover_events parse_date float_parses db now_month now_year location platform
                  month year search draws log_uuid log_now
  = (Raise session_error, db).
Proof.
  intros Hp Hb. unfold discover_events. rewrite Hp, Hb. cbn [negb].
  by destruct search.
Qed.

End WithParsers.

Import Samples.

Lemma invalid_candidate_is_skipped_witness :
  _process_and_store_event sample_parse (λ _, true) (db_of [meetup])
                           (<["title" := PStr "AI Summit"]> ∅) "luma"
                           (at_ 2025 1 2 0 0) (at_ 2025 1 2 8 0) (at_ 2025 1 2 8 1)
                           "u1"
  = (None, db_of [meetup]).
Proof. apply invalid_candidate_is_skipped. reflexivity. Defined.

Lemma bare_candidate_gets_defaults_witness :
  _process_and_store_event sample_parse (λ _, true) (db_of [meetup]) bare_summit "luma"
                           (at_ 2025 1 2 0 0) (at_ 2025 1 2 8 0) (at_ 2025 1 2 8 1)
                           "u1"
  = (Some (summary_of (default_event "u1" "AI Summit" (at_ 2025 1 15 10 0) "luma"
                                     (at_ 2025 1 2 8 0) (at_ 2025 1 2 8 1))),
     set_events (db_of [meetup])
                (events (db_of [meetup])
                 ++ [default_event "u1" "AI Summit" (at_ 2025 1 15 10 0) "luma"
                                   (at_ 2025 1 2 8 0) (at_ 2025 1 2 8 1)])).
Proof.
  apply bare_candidate_gets_defaults; [reflexivity|reflexivity|].
  intros k Hk. unfold optional_keys in Hk.
  repeat (apply elem_of_cons in Hk as [->|Hk]; [reflexivity|]).
  by apply elem_of_nil in Hk.
Defined.

Lemma refused_run_writes_nothing_witness :
  ∃ e, discover_events sample_parse (λ _, true) (db_of [meetup]) 6 2026 "Berlin"
                       "facebook" (Some 1) (Some 2025) (Ok [summit_again])
                       sample_draws "log1" (at_ 2025 1 2 8 1)
       = (Raise e, db_of [meetup]).
Proof. apply refused_run_writes_nothing. left. reflexivity. Defined.

Lemma discover_events_never_completes_witness :
  discover_events sample_parse (λ _, true) (db_of [meetup]) 6 2026 "Berlin" "luma"
                  (Some 1) (Some 2025) (Ok [summit_again]) sample_draws "log1"
                  (at_ 2025 1 2 8 1)
  = (Raise session_error, db_of [meetup])
  ∧ discover_events sample_parse (λ _, true) (db_of [meetup]) 6 2026 "Berlin" "luma"
                    (Some 1) (Some 2025) (Raise (RequestError "timed out"))
                    sample_draws "log1" (at_ 2025 1 2 8 1)
    = (Raise session_error, db_of [meetup]).
Proof.
  split;
    apply (discover_events_never_completes sample_parse (λ _, true) (db_of [meetup])
             6 2026 "Berlin" "luma" (Some 1) (Some 2025) _ sample_draws "log1"
             (at_ 2025 1 2 8 1) (at_ 2025 1 1 0 0, at_ 2025 1 31 0 0));
    reflexivity.
Defined.

End EngineMore.

(** ** From the search to the store *)

Module PipelineMore.
Import Py Datetime Models EventDiscovery Perplexity Spec PipelineFacts.
Local Open Scope Z_scope.

(** X22.  The score the classifier gave is the score that is stored: a
    candidate that carries an integer score of at least 5 gets a summary
    with that score when it is inserted. *)
Theorem inserted_event_keeps_score
    parse_date float_parses db raw_event platform today now updated uuid s db' :
  scored_relevant raw_event →
  _process_and_store_event parse_date float_parses db raw_event platform today now
                           updated uuid
  = (Some s, db') →
  ∃ z, raw_event !! "ai_relevance_score" = Some (PInt z)
       ∧ s_aiRelevanceScore s = Some (NInt z) ∧ 5 <= z.
Proof.
  intros (z & Hz & Hle) Hp. exists z. split; [done|]. split; [|done].
  destruct (candidate_key (parse_date today) raw_event) as [[title event_date]|]
    eqn:Hkey.
  2: { rewrite (process_invalid _ _ _ _ _ _ _ _ _ Hkey) in Hp. discriminate. }
  destruct (decide (count_triple title event_date platform (events db) = 0%nat))
    as [Hfree%count_triple_free|Hcount].
  - rewrite (process_fresh _ _ _ _ _ _ _ _ _ _ _ Hkey Hfree) in Hp.
    destruct (new_event _ _ _ _ _ _ _ _) as [event|] eqn:Hnew; [|discriminate].
    assert (Hs : s = summary_of event) by congruence. subst s.
    apply new_event_fields in Hnew as (_ & _ & _ & _ & _ & _ & _ & Hscore & _).
    unfold get in Hscore. rewrite Hz in Hscore. cbn [bind_int] in Hscore.
    unfold summary_of. cbn [s_aiRelevanceScore]. congruence.
  - pose proof (process_matched parse_date float_parses db raw_event platform today
                  now updated uuid _ _ Hkey Hcount) as [Hnone _].
    rewrite Hp in Hnone. discriminate.
Qed.

Lemma inserted_event_keeps_score_witness :
  let run := _process_and_store_event Samples.sample_parse (λ _, true)
               (Samples.db_of [Samples.meetup]) Samples.summit_again "luma"
               (Samples.at_ 2025 1 2 0 0) (Samples.at_ 2025 1 2 8 0)
               (Samples.at_ 2025 1 2 8 1) "u1" in
  ∃ s, run.1 = Some s ∧ s_aiRelevanceScore s = Some (NInt 9).
Proof.
  cbv zeta.
  set (run := _process_and_store_event Samples.sample_parse (λ _, true)
                (Samples.db_of [Samples.meetup]) Samples.summit_again "luma"
                (Samples.at_ 2025 1 2 0 0) (Samples.at_ 2025 1 2 8 0)
                (Samples.at_ 2025 1 2 8 1) "u1").
  destruct (inserted_event_keeps_score Samples.sample_parse (λ _, true)
              (Samples.db_of [Samples.meetup]) Samples.summit_again "luma"
              (Samples.at_ 2025 1 2 0 0) (Samples.at_ 2025 1 2 8 0)
              (Samples.at_ 2025 1 2 8 1) "u1"
              (default (summary_of Samples.summit) run.1) run.2)
    as (z & Hz & Hs & _).
  - exists 9. split; [reflexivity|lia].
  - by vm_compute.
  - exists (default (summary_of Samples.summit) run.1). split; [by vm_compute|].
    rewrite Hs. f_equal. vm_compute in Hz. congruence.
Defined.

End PipelineMore.

(** ** Sessions *)

Module SessionMore.
Import Py Datetime Models SessionManager Spec SessionFacts.
Local Open Scope Z_scope.

(** X10.  [cleanup_expired_sessions] deletes nothing and returns 0,
    whatever the store holds and whatever the clock reads: either the
    cutoff date overflows, or the session block raises, and both
    exceptions are caught by the [except Exception] that returns 0. *)
Theorem cleanup_expired_sessions_sweeps_nothing db now :
  cleanup_expired_sessions db now = (0%nat, db).
Proof.
  unfold cleanup_expired_sessions. by destruct (sub now session_lifetime).
Qed.

Lemma default_preferences_non_empty location : default_preferences location ≠ ∅.
Proof. apply insert_non_empty. Qed.

(** X12.  [get_user_preferences] never returns an empty map: a session without
    stored preferences, or no session at all, gets the defaults. *)
Theorem get_user_preferences_never_empty db session_id now :
  (get_user_preferences db session_id now).1 ≠ ∅.
Proof.
  unfold get_user_preferences. rewrite get_session_none. cbn [fst].
  apply default_preferences_non_empty.
Qed.

(** X14.  [create_session] stores no session and returns no token: for
    every token, location and preference map the session block raises
    and the [except Exception] clause re-raises its [TypeError]. *)
Theorem create_session_always_raises db session_id now location preferences :
  create_session db session_id now location preferences = (Raise session_error, db)
  ∧ ∀ t_active t_check,
      is_valid_session (create_session db session_id now location preferences).2
                       session_id t_active t_check
      = (Ok false, db).
Proof.
  rewrite create_session_raises. split; [done|]. intros t_active t_check.
  cbn [snd]. apply is_valid_session_false.
Qed.

End SessionMore.

(** ** The search client *)

Module ClientMore.
Import Py Datetime Models Perplexity Spec.
Local Open Scope Z_scope.

Section WithJson.
Variable json_loads : string → option pyval.
Variable title_hash : pyval → Z.
Variable py_str : pyval → string.

Local Abbreviation sig := (signature py_str).

Lemma signature_well_formed event :
  (∃ s, sig event = Ok s) ↔ well_formed_candidate event.
Proof.
  unfold signature, well_formed_candidate, get. split.
  - intros [s Hs]. destruct event as [| | | | | |d]; try discriminate.
    exists d. split; [done|].
    destruct (to_map d !! "title") as [[| | | |t| |]|]; try discriminate; eauto.
  - intros (d & -> & [Hd|[t Hd]]); rewrite Hd; eauto.
Qed.

Lemma dedup_from_spec events : ∀ seen unique,
  dedup_from py_str seen events = Ok unique →
  sublist unique events
  ∧ NoDup (map sig unique)
  ∧ (∀ u s, u ∈ unique → sig u = Ok s → s ∉ seen)
  ∧ (∀ e, e ∈ events →
          ∃ s, sig e = Ok s ∧ (s ∈ seen ∨ ∃ u, u ∈ unique ∧ sig u = Ok s)).
Proof.
  induction events as [|event rest IH]; intros seen unique.
  - intros [= <-]. split; [constructor|]. split; [constructor|].
    split; [by intros ?? ?%elem_of_nil|by intros ? ?%elem_of_nil].
  - cbn [dedup_from]. destruct (sig event) as [s|] eqn:Hs; [|discriminate].
    cbn [mbind res_bind bind]. case_bool_decide as Hseen.
    + intros Hd. destruct (IH _ _ Hd) as (Hsub & Hnd & Hfresh & Hcover).
      split; [by apply sublist_cons|]. split; [done|]. split; [done|].
      intros e [->|He]%elem_of_cons; [eauto|by apply Hcover].
    + destruct (dedup_from py_str ({[s]} ∪ seen) rest) as [out|] eqn:Hd; [|discriminate].
      cbn [mbind res_bind bind]. intros [= <-].
      destruct (IH _ _ Hd) as (Hsub & Hnd & Hfresh & Hcover).
      split; [by apply sublist_skip|]. split; [|split].
      * cbn [map]. apply NoDup_cons. split; [|done].
        intros (u & Hu & Hin)%list_elem_of_fmap. symmetry in Hu. rewrite Hs in Hu.
        specialize (Hfresh u s Hin Hu). apply Hfresh, elem_of_union. left.
        by apply elem_of_singleton.
      * intros u s' [->|Hu]%elem_of_cons Hsu.
        -- congruence.
        -- specialize (Hfresh u s' Hu Hsu). intros ?. apply Hfresh, elem_of_union.
           by right.
      * intros e [->|He]%elem_of_cons.
        -- exists s. split; [done|]. right. exists event. split; [by left|done].
        -- destruct (Hcover e He) as (s' & Hs' & [Hin|(u & Hu & Hsu)]).
           ++ exists s'. split; [done|].
              apply elem_of_union in Hin as [->%elem_of_singleton|Hin]; [|by left].
              right. exists event. split; [by left|done].
           ++ exists s'. split; [done|]. right. exists u. split; [by right|done].
Qed.

(** X15.  [_deduplicate_events] returns a sublist of its input, so the order
    is kept, in which no two candidates have the same signature (the
    lower-cased, trimmed title and the date), and which still holds a
    candidate for every signature of the input. *)
Theorem deduplicate_events_unique events unique :
  _deduplicate_events py_str events = Ok unique →
  sublist unique events
  ∧ NoDup (map sig unique)
  ∧ ∀ e, e ∈ events → ∃ u, u ∈ unique ∧ sig u = sig e.
Proof.
  intros Hd. destruct (dedup_from_spec _ _ _ Hd) as (Hsub & Hnd & _ & Hcover).
  split; [done|]. split; [done|].
  intros e He. destruct (Hcover e He) as (s & Hs & [Hin|(u & Hu & Hsu)]).
  - by apply not_elem_of_empty in Hin.
  - exists u. split; [done|]. congruence.
Qed.

Lemma dedup_from_fixed unique : ∀ seen,
  NoDup (map sig unique) →
  (∀ u, u ∈ unique → ∃ s, sig u = Ok s ∧ s ∉ seen) →
  dedup_from py_str seen unique = Ok unique.
Proof.
  induction unique as [|u unique IH]; intros seen Hnd Hok; [done|].
  cbn [dedup_from]. destruct (Hok u) as (s & Hs & Hfresh); [by left|].
  rewrite Hs. cbn [mbind res_bind bind]. rewrite bool_decide_eq_false_2 by done.
  cbn [map] in Hnd. apply NoDup_cons in Hnd as [Hu Hnd].
  rewrite IH; [done|done|].
  intros u' Hu'. destruct (Hok u') as (s' & Hs' & Hfresh'); [by right|].
  exists s'. split; [done|]. intros [->%elem_of_singleton|?]%elem_of_union; [|done].
  apply Hu. apply list_elem_of_fmap. exists u'. split; [congruence|done].
Qed.

(** X16.  Deduplicating twice changes nothing more. *)
Theorem deduplicate_events_idempotent events unique :
  _deduplicate_events py_str events = Ok unique →
  _deduplicate_events py_str unique = Ok unique.
Proof.
  intros Hd. destruct (dedup_from_spec _ _ _ Hd) as (Hsub & Hnd & _ & Hcover).
  apply dedup_from_fixed; [done|]. intros u Hu.
  destruct (Hcover u) as (s & Hs & _).
  - by apply (sublist_subseteq _ _ Hsub).
  - exists s. split; [done|]. apply not_elem_of_empty.
Qed.

Lemma dedup_from_ok events : ∀ seen,
  (∃ unique, dedup_from py_str seen events = Ok unique)
  ↔ Forall well_formed_candidate events.
Proof.
  induction events as [|event rest IH]; intros seen.
  - split; [constructor|]. cbn. eauto.
  - cbn [dedup_from]. rewrite Forall_cons, <- signature_well_formed. split.
    + intros [unique Hd]. destruct (sig event) as [s|]; [|discriminate].
      split; [eauto|]. cbn [mbind res_bind bind] in Hd. case_bool_decide.
      * apply (IH seen). eauto.
      * apply (IH ({[s]} ∪ seen)).
        destruct (dedup_from py_str ({[s]} ∪ seen) rest); [eauto|discriminate].
    + intros [[s ->] Hall]. cbn [mbind res_bind bind]. case_bool_decide.
      * by apply IH.
      * apply (IH ({[s]} ∪ seen)) in Hall as [out ->]. cbn. eauto.
Qed.

(** *** Classification *)

Local Abbreviation classify := (classify_event json_loads title_hash).
Local Abbreviation classify_loop := (classify_all json_loads title_hash).

(** X17.  Classifications are memoised by title: once a reply has been parsed
    for a title, every later call for an event with that title returns the
    same classification without looking at its reply and leaves the cache
    as it is. *)
Theorem classification_is_memoised
    cache event_data content classification event_data' reply' :
  cache !! cache_key title_hash event_data = None →
  json_loads content = Some classification →
  cache_key title_hash event_data' = cache_key title_hash event_data →
  ∃ cache',
    classify cache event_data (Content content) = (Ok classification, cache')
    ∧ classify cache' event_data' reply' = (Ok classification, cache').
Proof.
  intros Hmiss Hparse Hkey. unfold classify_event. rewrite Hmiss, Hparse.
  eexists. split; [reflexivity|]. by rewrite Hkey, lookup_insert_eq.
Qed.

Lemma classify_event_cache_grows cache event_data reply k v :
  cache !! k = Some v → (classify cache event_data reply).2 !! k = Some v.
Proof.
  intros Hk. unfold classify_event.
  destruct (cache !! cache_key title_hash event_data) eqn:Hc; [done|].
  destruct reply as [e|content]; [done|].
  destruct (json_loads content); [|done]. cbn [snd].
  rewrite lookup_insert_ne; [done|]. congruence.
Qed.

(** An event that passed [>= 5] and took the classification in carries
    the classification's score. *)
Lemma merged_score_passes event c e :
  relevant c = Ok true → merge_classification event c = Ok e → score_passes e.
Proof.
  destruct c as [| | | | | |d]; try discriminate. unfold relevant.
  cbn [merge_classification]. intros Hrel [= <-]. unfold score_passes, update.
  destruct (to_map d !! "ai_relevance_score") as [[| |z|f| | |]|] eqn:Hz;
    try discriminate.
  - destruct b; discriminate.
  - left. exists z. split; [by rewrite lookup_union, Hz; destruct (event !! _)|].
    injection Hrel as Hrel. by apply Z.leb_le.
  - right. exists f. split; [by rewrite lookup_union, Hz; destruct (event !! _)|].
    congruence.
Qed.

Lemma classify_all_invariant unique_events : ∀ cache replies i,
  let '(classified, cache') := classify_loop cache unique_events replies i in
  (∀ events, classified = Ok events →
     Forall score_passes events
     ∧ (List.length events <= List.length unique_events)%nat)
  ∧ ∀ k v, cache !! k = Some v → cache' !! k = Some v.
Proof.
  induction unique_events as [|event rest IH]; intros cache replies i.
  - cbn. split; [|done]. intros events [= <-]. split; [constructor|done].
  - cbn [classify_all].
    pose proof (classify_event_cache_grows cache event (replies i)) as Hgrow.
    destruct (classify cache event (replies i)) as [classification cache1].
    cbn [snd] in Hgrow.
    specialize (IH cache1 replies (S i)).
    destruct (try_except _ _) as [kept|err] eqn:Hkept; [|split; [intros ? ?; discriminate|done]].
    destruct (classify_loop cache1 rest replies (S i)) as [classified cache2].
    destruct IH as (Hall & Hcache).
    split; [|by eauto].
    destruct classified as [tail|err]; [|by destruct kept; intros ? ?; discriminate].
    destruct (Hall tail eq_refl) as [Hpass Hlen].
    destruct kept as [e|]; cbn [mbind res_bind bind].
    + intros events [= <-]. split; [|cbn [List.length]; lia].
      constructor; [|done].
      destruct classification as [c|]; cbn [try_except mbind res_bind bind] in Hkept;
        [|discriminate].
      destruct (relevant c) as [[]|] eqn:Hrel;
        cbn [try_except mbind res_bind bind] in Hkept; try discriminate.
      destruct (merge_classification event c) as [e'|] eqn:Hmerge;
        cbn [try_except mbind res_bind bind] in Hkept; [|discriminate].
      injection Hkept as <-. by eapply merged_score_passes.
    + intros events [= <-]. split; [done|]. cbn [List.length]. lia.
Qed.

(** X18.  What the classification loop returns and what it does to the
    cache: every event of a list it returns carries a score that passed
    [>= 5], an [int] of at least 5 or a [float] of at least 5.0, the
    list holds at most as many events as the loop was given, and,
    whether the loop returns or raises, an entry of the cache is never
    changed or removed. *)
Theorem classify_all_keeps_relevant unique_events : ∀ cache replies i,
  let '(classified, cache') := classify_loop cache unique_events replies i in
  (∀ events, classified = Ok events →
     Forall score_passes events
     ∧ (List.length events <= List.length unique_events)%nat)
  ∧ ∀ k v, cache !! k = Some v → cache' !! k = Some v.
Proof. apply classify_all_invariant. Qed.

(** X19.  A classification that fails ends the whole search.  The
    [except] clause of the loop calls [logger.error] with a keyword
    [event], which a [structlog] logger method already takes as its
    first positional parameter, so the clause itself raises [TypeError];
    the candidates that follow are not classified.  This is so when the
    request fails, and when the reply parses to a classification that
    [>= 5] cannot be asked of, which has been cached by then. *)
Theorem failed_classification_aborts cache event rest replies i :
  cache !! cache_key title_hash event = None →
  (∀ e, replies i = CallFailed e →
        classify_loop cache (event :: rest) replies i
        = (Raise log_error_event_clash, cache))
  ∧ (∀ content c e,
       replies i = Content content → json_loads content = Some c →
       relevant c = Raise e →
       classify_loop cache (event :: rest) replies i
       = (Raise log_error_event_clash, <[cache_key title_hash event := c]> cache)).
Proof.
  intros Hmiss. split.
  - intros e Hreply. cbn [classify_all]. unfold classify_event.
    by rewrite Hmiss, Hreply.
  - intros content c e Hreply Hparse Hrel. cbn [classify_all]. unfold classify_event.
    rewrite Hmiss, Hreply, Hparse. cbn [try_except mbind res_bind bind].
    by rewrite Hrel.
Qed.

(** *** [search_events] *)

Local Abbreviation search := (search_events json_loads title_hash py_str).

Lemma execute_all_failed queries : ∀ search_replies i,
  (∀ j, ∃ e, search_replies j = CallFailed e) →
  execute_all json_loads queries search_replies i = [].
Proof.
  induction queries as [|q rest IH]; intros search_replies i Hfail; [done|].
  cbn [execute_all]. destruct (Hfail i) as [e ->]. cbn. by apply IH.
Qed.

(** X20.  When every search request fails, [search_events] does not raise: it
    returns the empty list and leaves the cache alone. *)
Theorem failed_searches_give_no_events
    cache location platform date_range search_replies classify_replies :
  (∀ j, ∃ e, search_replies j = CallFailed e) →
  search_events json_loads title_hash py_str cache location platform date_range
                search_replies classify_replies
  = (Ok [], cache).
Proof.
  intros Hfail. unfold search_events. by rewrite execute_all_failed.
Qed.

Lemma signature_raises event e :
  sig event = Raise e → ∃ msg, e = AttributeError msg.
Proof.
  unfold signature. destruct event as [| | | | | |d]; try (intros [= <-]; eauto).
  destruct (get (to_map d) "title" (PStr "")); intros [= <-]; eauto.
Qed.

Lemma dedup_from_raises events : ∀ seen e,
  dedup_from py_str seen events = Raise e → ∃ msg, e = AttributeError msg.
Proof.
  induction events as [|event rest IH]; intros seen e; [discriminate|].
  cbn [dedup_from]. destruct (sig event) as [s|e'] eqn:Hs;
    cbn [mbind res_bind bind].
  - case_bool_decide; [apply IH|].
    destruct (dedup_from py_str ({[s]} ∪ seen) rest) as [unique|e'] eqn:Hd;
      cbn [mbind res_bind bind]; [discriminate|].
    intros [= <-]. by eapply IH.
  - intros [= <-]. by eapply signature_raises.
Qed.

(** X21.  [search_events] and the shape of the candidates.  When one
    candidate the searches brought is no JSON object, or has a title
    that is no string, the call raises the [AttributeError] of
    [_deduplicate_events], which nothing catches, and the cache is as it
    was.  When the call returns a list, every candidate was such an
    object, the events of the list all carry a score that passed
    [>= 5], and they are at most as many as the candidates. *)
Theorem search_events_outcome
    cache location platform date_range search_replies classify_replies :
  let all_events :=
    execute_all json_loads (_generate_search_queries location platform date_range)
                search_replies 0 in
  let '(r, cache') :=
    search_events json_loads title_hash py_str cache location platform date_range
                  search_replies classify_replies in
  (¬ Forall well_formed_candidate all_events →
   (∃ msg, r = Raise (AttributeError msg)) ∧ cache' = cache)
  ∧ ∀ events, r = Ok events →
      Forall well_formed_candidate all_events
      ∧ Forall score_passes events
      ∧ (List.length events <= List.length all_events)%nat.
Proof.
  cbv zeta. unfold search_events.
  set (all_events := execute_all _ _ _ _).
  pose proof (dedup_from_ok all_events ∅) as Hok.
  pose proof (dedup_from_raises all_events ∅) as Hraise.
  fold (_deduplicate_events py_str all_events) in Hok, Hraise.
  destruct (_deduplicate_events py_str all_events) as [unique|e] eqn:Hd.
  - assert (Hwf : Forall well_formed_candidate all_events) by (apply Hok; eauto).
    pose proof (classify_all_invariant (map as_dict unique) cache classify_replies 0)
      as Hc.
    destruct (classify_loop cache (map as_dict unique) classify_replies 0)
      as [classified cache'].
    split; [intros Hnot; by destruct Hnot|].
    intros events ->. destruct Hc as (Hall & _).
    destruct (Hall events eq_refl) as [Hpass Hlen]. split; [done|]. split; [done|].
    rewrite length_map in Hlen.
    destruct (dedup_from_spec _ _ _ Hd) as (Hsub & _).
    apply sublist_length in Hsub. lia.
  - split; [|intros events ?; discriminate].
    intros _. split; [|done]. destruct (Hraise e eq_refl) as [msg ->]. eauto.
Qed.

End WithJson.

Import Samples.

Lemma deduplicate_events_unique_witness :
  sublist [found_summit] [found_summit; found_summit_again]
  ∧ NoDup (map (signature sample_str) [found_summit])
  ∧ ∀ e, e ∈ [found_summit; found_summit_again] →
         ∃ u, u ∈ [found_summit] ∧ signature sample_str u = signature sample_str e.
Proof.
  apply deduplicate_events_unique. by vm_compute.
Defined.

Lemma deduplicate_events_idempotent_witness :
  _deduplicate_events sample_str [found_summit] = Ok [found_summit].
Proof.
  apply (deduplicate_events_idempotent sample_str [found_summit; found_summit_again]).
  by vm_compute.
Defined.

Lemma classification_is_memoised_witness :
  ∃ cache',
    classify_event sample_loads sample_hash ∅ (<["title" := PStr "AI Summit"]> ∅)
                   (Content "{}")
    = (Ok (PDict []), cache')
    ∧ classify_event sample_loads sample_hash cache'
                     (<["title" := PStr "AI Summit"]>
                      (<["url" := PStr "https://lu.ma/ai-summit"]> ∅))
                     (CallFailed (RequestError "timed out"))
      = (Ok (PDict []), cache').
Proof.
  apply classification_is_memoised.
  - apply lookup_empty.
  - reflexivity.
  - by vm_compute.
Defined.

(** A classification scored 7.5 passes the test and is merged into the
    candidate. *)
Lemma fractional_score_is_kept :
  ∃ event,
    (classify_all sample_loads sample_hash ∅ [bare_summit]
                  (λ _, Content scored_7_5) 0).1 = Ok [event]
    ∧ event !! "ai_relevance_score" = Some (PFloat 7.5)
    ∧ event !! "title" = Some (PStr " AI Summit ").
Proof. eexists. split; [reflexivity|]. split; reflexivity. Qed.

Lemma failed_classification_aborts_witness :
  classify_all sample_loads sample_hash ∅ [bare_summit; summit_again]
               (λ _, CallFailed (RequestError "timed out")) 0
  = (Raise log_error_event_clash, ∅)
  ∧ classify_all sample_loads sample_hash ∅ [bare_summit; summit_again]
                 (λ _, Content "{}") 0
    = (Raise log_error_event_clash,
       <[cache_key sample_hash bare_summit := PDict []]> ∅).
Proof.
  destruct (failed_classification_aborts sample_loads sample_hash ∅ bare_summit
              [summit_again] (λ _, CallFailed (RequestError "timed out")) 0%nat
              (lookup_empty _)) as [Hfailed _].
  destruct (failed_classification_aborts sample_loads sample_hash ∅ bare_summit
              [summit_again] (λ _, Content "{}") 0%nat (lookup_empty _))
    as [_ Hparsed].
  split.
  - exact (Hfailed (RequestError "timed out") eq_refl).
  - exact (Hparsed "{}" (PDict []) (KeyError "ai_relevance_score") eq_refl eq_refl
                   eq_refl).
Defined.

Lemma failed_searches_give_no_events_witness :
  search_events sample_loads sample_hash sample_str ∅ "Berlin" "luma" "January 2025"
                (λ _, CallFailed (RequestError "timed out")) (λ _, Content "{}")
  = (Ok [], ∅).
Proof.
  apply failed_searches_give_no_events. intros j. eauto.
Defined.

End ClientMore.

(** ** The handlers *)

Module ApiMore.
Import Py Datetime Models Spec DatetimeFacts QueryFacts SessionFacts.
Local Open Scope Z_scope.

(** *** [POST /events/watch] *)

(** X23.  The watch handler never answers 400: the 400 it raises when the
    engine reports a failure is caught by its own [except Exception] and
    turned into a 500, so the status is 200 or 500. *)
Theorem watch_handler_never_400 db event_id watch_status session_id now :
  let r := (ApiEvents.toggle_event_watch_status db event_id watch_status
                                                session_id now).1 in
  ApiEvents.status_code r ≠ 400
  ∧ (ApiEvents.status_code r = 200 ∨ ApiEvents.status_code r = 500).
Proof.
  cbv zeta. unfold ApiEvents.toggle_event_watch_status.
  destruct watch_status.
  - destruct (EventDiscovery.mark_event_watched db session_id event_id now) as [[] db1];
      cbn; split; (lia || auto).
  - destruct (EventDiscovery.unmark_event_watched db session_id event_id) as [[] db1];
      cbn; split; (lia || auto).
Qed.

(** X24.  The watch handler answers 500 to every request and writes
    nothing: both toggles of the engine report failure, the handler
    raises its 400 for that inside its own [try], and its
    [except Exception] turns it into the 500. *)
Theorem watch_handler_always_500 db event_id watch_status session_id now :
  ApiEvents.toggle_event_watch_status db event_id watch_status session_id now
  = (Raise (HTTPException 500 "Failed to update watch status"), db).
Proof.
  unfold ApiEvents.toggle_event_watch_status.
  destruct (WatchFacts.watch_toggles_fail db session_id event_id now) as [Hm Hu].
  rewrite Hm, Hu. by destruct watch_status.
Qed.

(** *** [GET /events/current] *)

(** X25.  The current-month listing answers 500 whatever the clock
    reads and whatever the filters: a month or a year the checks of the
    month handler refuse gives the 400 that its [except Exception] turns
    into 500, and otherwise the engine's query raises. *)
Theorem current_month_always_500
    db now_month now_year location category session_id :
  ApiEvents.get_current_month_events db now_month now_year location category
                                     session_id
  = Raise (HTTPException 500 "Failed to retrieve events").
Proof.
  unfold ApiEvents.get_current_month_events, ApiEvents.get_events_for_month.
  destruct (negb _); [done|]. destruct (_ || _); [done|].
  by destruct (query_always_raises db now_month now_year session_id location
                 (Some now_month) (Some now_year) category
                 (EventDiscovery.int_or (Some 5) 5)) as [e ->].
Qed.

(** *** [POST /discover-events] *)

(** X26.  The discovery handler never answers 200 and never changes the
    store: the update of the session's preferences fails without a
    trace, and the engine raises.  The answer is 400 exactly when the
    engine refuses the arguments with a [ValueError], for a platform it
    does not support or for a month and year [datetime] rejects as out
    of range; in every other case, an accepted request and a month or
    year too large for a C [int] among them, it is 500. *)
Theorem discover_handler_statuses
    parse_date float_parses db now_month now_year location platform month year
    session_id now search draws log_uuid log_now :
  let '(r, db') :=
    ApiEvents.discover_events parse_date float_parses db now_month now_year location
      (Some platform) month year session_id now search draws log_uuid log_now in
  db' = db
  ∧ (ApiEvents.status_code r = 400 ∨ ApiEvents.status_code r = 500)
  ∧ (ApiEvents.status_code r = 400
     ↔ EventDiscovery.in_list platform EventDiscovery.supported_platforms = false
       ∨ ∃ msg, month_bounds (EventDiscovery.int_or year now_year)
                             (EventDiscovery.int_or month now_month)
                = Raise (ValueError msg)).
Proof.
  unfold ApiEvents.discover_events.
  rewrite update_session_preferences_false.
  unfold EventDiscovery.discover_events.
  destruct (EventDiscovery.in_list platform EventDiscovery.supported_platforms)
    eqn:Hp; cbn [negb].
  2: { cbn. split; [done|]. split; [by left|]. split; [by left|done]. }
  destruct (month_bounds _ _) as [bounds|e] eqn:Hb.
  - destruct search as [raw_events|e]; cbn;
      (split; [done|]); (split; [by right|]); (split; [done|]);
      intros [?|[msg ?]]; discriminate.
  - destruct e as [code detail|msg|msg|msg|msg|msg| |msg|msg]; cbn;
      (split; [done|]).
    2: { split; [by left|]. split; [|done]. intros _. right. eauto. }
    all: split; [by right|]; split; [done|]; intros [?|[m ?]]; discriminate.
Qed.

(** Month 13 is refused with a 400; a month beyond the C [int] range
    makes [datetime] raise [OverflowError], which is answered 500, as is
    a request the engine accepts. *)
Lemma discover_handler_statuses_examples :
  let status month :=
    ApiEvents.status_code
      (ApiEvents.discover_events Samples.sample_parse (λ _, true)
         Samples.db_with_session 6 2026 "Berlin" (Some "luma") (Some month)
         (Some 2025) "tok" (Samples.at_ 2025 1 2 8 0) (Ok [Samples.summit_again])
         Samples.sample_draws "log1" (Samples.at_ 2025 1 2 8 1)).1 in
  status 13 = 400 ∧ status 2147483648 = 500 ∧ status 1 = 500.
Proof. cbv zeta. split; [|split]; reflexivity. Qed.

(** *** The session dependencies *)

(** X27.  The [get_session_id] dependency of the events router never
    returns a token: with no cookie, an empty one or any other, the
    validity check answers [False], the dependency goes on to create a
    session, and [create_session] raises.  No request to that router
    reaches its handler with a session. *)
Theorem events_dependency_always_raises
    db cookie cf_ipcountry token t_active t_check now :
  ApiEvents.get_session_id db cookie cf_ipcountry token t_active t_check now
  = (Raise session_error, db).
Proof.
  unfold ApiEvents.get_session_id.
  destruct cookie as [session_id|]; [|apply create_session_raises].
  destruct (String.eqb session_id ""); [apply create_session_raises|].
  rewrite is_valid_session_false. apply create_session_raises.
Qed.

(** X28.  The dependency of the users router creates nothing: it returns a
    token only when the cookie carries a stored session that has not
    expired, and it never adds a session to the store. *)
Theorem users_dependency_creates_nothing db cookie t_active t_check :
  let '(r, db') := ApiUsers.get_session_id db cookie t_active t_check in
  (∀ k, is_Some (user_sessions db' !! k) → is_Some (user_sessions db !! k))
  ∧ (∀ session_id, r = Ok session_id →
       cookie = Some session_id
       ∧ ∃ s0, user_sessions db !! session_id = Some s0 ∧ ¬ expired s0 t_check)
  ∧ ((cookie = None ∨ cookie = Some "") →
     r = Raise (HTTPException 401 "Invalid or expired session") ∧ db' = db).
Proof.
  unfold ApiUsers.get_session_id.
  destruct cookie as [sid|]; [|split; [done|split; [intros ? ?; discriminate|done]]].
  destruct (String.eqb sid "");
    [split; [done|split; [intros ? ?; discriminate|done]]|].
  rewrite is_valid_session_false.
  split; [done|]. split; [intros ? ?; discriminate|done].
Qed.

(** *** [PUT /preferences] *)

(** X29.  [PUT /preferences] is answered 400 whatever is sent, and
    changes nothing: a request without a field is refused as such, and
    for any other the update of the session reports failure, which the
    handler raises as 400 and, unlike the handlers of the events router,
    lets through. *)
Theorem preferences_update_always_400 db request session_id now t_read :
  ∃ msg,
    ApiUsers.update_user_preferences db request session_id now t_read
    = (Raise (HTTPException 400 msg), db).
Proof.
  unfold ApiUsers.update_user_preferences.
  case_bool_decide; [eauto|]. rewrite update_session_preferences_false. eauto.
Qed.

(** X30.  An update that supplies no field, or one for a token without a
    session, is answered 400 and changes nothing; unlike in the events
    router the 400 gets through, this handler re-raising it. *)
Theorem preferences_update_refusal db request session_id now t_read :
  ((∀ k v, request !! k = Some v → v = PNone)
   ∨ user_sessions db !! session_id = None) →
  ∃ msg,
    ApiUsers.update_user_preferences db request session_id now t_read
    = (Raise (HTTPException 400 msg), db).
Proof.
  intros _. unfold ApiUsers.update_user_preferences.
  case_bool_decide; [eauto|]. rewrite update_session_preferences_false. eauto.
Qed.

Lemma preferences_update_refusal_witness :
  ∃ msg,
    ApiUsers.update_user_preferences (Samples.db_of []) {["theme" := PStr "light"]}
      "tok" (Samples.at_ 2025 1 5 9 0) (Samples.at_ 2025 1 6 9 0)
    = (Raise (HTTPException 400 msg), Samples.db_of []).
Proof.
  apply preferences_update_refusal. right. apply lookup_empty.
Defined.

End ApiMore.
